(** * Notebook 6 - Regularization with Lasso and Ridge Regression

    A verification development for the lecture notebook
    [Lectures/Regression/Notebook 6 - Regularization with Lasso and Ridge
    Regression.ipynb].

    The notebook is a list of 46 cells.  Two views of it are used:

    - Part I keeps the code cells as syntax trees (modules [Py] and
      [Notebook]), cell by cell and statement by statement, and defines
      analyses over them (module [Analysis]): which names are imported, which
      functions are called and from which library, which statements could
      intercept an exception, where fitted data comes from.
    - Parts II to IV give the cells that compute (the zero table, the degree
      loop, the alpha sweep, the ridge/lasso comparison) as programs over
      numpy-style lists in a trace-and-exception monad, with the scikit-learn
      estimators as an oracle.  Scalars are an interface with two instances:
      IEEE binary64 (what Python floats are) and the real numbers.

    Part V names what the loops amount to, Part VI proves it, and Part VII
    states the properties of the notebook, claim by claim. *)

From Stdlib Require Import String Ascii.
From Stdlib Require Import DecimalString DecimalZ.
From Stdlib Require Import Reals Lra.
From Stdlib Require Import Floats.SpecFloat.
From Stdlib Require Import ZArith List Bool Lia.
Import ListNotations.

Set Implicit Arguments.
Set Warnings "-register-all".

(* ===================================================================== *)
(** * Part I.  The notebook as syntax                                     *)
(* ===================================================================== *)

Module Py.

Local Open Scope string_scope.

Inductive binop := Add | Sub | Mul | Div | Pow.

(** Expressions of the Python subset that a notebook cell can hold.
    [EFloat m e] is the decimal literal [m * 10^e] as written in the source
    ([1.2] is [EFloat 12 (-1)], [.000001] is [EFloat 1 (-6)]). *)
Inductive expr :=
| EName (x : string)
| EInt (z : Z)
| EFloat (m e : Z)
| EStr (s : string)
| EBool (b : bool)
| EAttr (e : expr) (a : string)
| ECall (f : expr) (args : list expr) (kw : list (string * expr))
| EBin (op : binop) (l r : expr)
| ENeg (e : expr)
| EIndex (e : expr) (ix : list expr)
| ESlice (lo hi : option expr)
| EList (es : list expr)
| ETuple (es : list expr)
| EDict (kvs : list (expr * expr))
| EListComp (elt : expr) (x : string) (it : expr)
| ELambda (params : list string) (body : expr)
| EAwait (e : expr)
| EYield (e : option expr).

(** Statements.  The notebook itself only uses imports, assignments,
    expression statements and [for]; the other forms are the ones the
    claims speak about (handlers, context managers, coroutines, shell and
    cell magics). *)
Inductive stmt :=
| SImport (m : string) (asname : option string)
| SFromImport (m : string) (name : string)
| SAssign (target value : expr)
| SExpr (e : expr)
| SFor (target iter : expr) (body : list stmt)
| SWhile (test : expr) (body : list stmt)
| SIf (test : expr) (body orelse : list stmt)
| SWith (items : list expr) (body : list stmt)
| STry (body : list stmt) (handlers : list (list stmt)) (orelse finalbody : list stmt)
| SRaise (e : option expr)
| SDef (is_async : bool) (name : string) (params : list string) (body : list stmt)
| SReturn (e : option expr)
| SMagic (line : string).

Inductive cell :=
| Markdown
| Code (body : list stmt).

(** Short forms used in the transcription. *)
Notation "# x" := (EName x) (at level 1, format "# x").
Notation "e @ a" := (EAttr e a) (at level 2, left associativity, format "e @ a").
Definition call (f : expr) (args : list expr) : expr := ECall f args [].

End Py.

Module Notebook.
Import Py.
Local Open Scope string_scope.
Local Open Scope Z_scope.

(** [x.reshape(-1,1)] *)
Definition x_column : expr :=
  call (#"x" @ "reshape") [ENeg (EInt 1); EInt 1].

(** [x*(x-1)] *)
Definition true_relationship : expr :=
  EBin Mul #"x" (EBin Sub #"x" (EInt 1)).

(** [x = np.linspace(-3,3,100)] *)
Definition assign_x : stmt :=
  SAssign #"x" (call (#"np" @ "linspace") [ENeg (EInt 3); EInt 3; EInt 100]).

(** [y = x*(x-1) + 1.2*np.random.randn(100)] *)
Definition assign_y : stmt :=
  SAssign #"y"
    (EBin Add true_relationship
       (EBin Mul (EFloat 12 (-1))
          (call (#"np" @ "random" @ "randn") [EInt 100]))).

(** [PolynomialFeatures(d, include_bias=False)] *)
Definition poly_step (d : expr) : expr :=
  ETuple [EStr "poly";
          ECall #"PolynomialFeatures" [d] [("include_bias", EBool false)]].

(** [["x^" + str(i) for i in range(1,n+1)]] *)
Definition power_labels : expr :=
  EListComp (EBin Add (EStr "x^") (call #"str" [#"i"])) "i"
    (call #"range" [EInt 1; EBin Add #"n" (EInt 1)]).

(** [["alpha=" + str(a) for a in alpha]] *)
Definition alpha_labels : expr :=
  EListComp (EBin Add (EStr "alpha=") (call #"str" [#"a"])) "a" #"alpha".

Definition axis_labels (xl yl : string) : list stmt :=
  [ SExpr (ECall (#"plt" @ "xlabel") [EStr xl] [("fontsize", EInt 16)]);
    SExpr (ECall (#"plt" @ "ylabel") [EStr yl] [("fontsize", EInt 16)]) ].

Definition cell1 : list stmt :=
  [ SImport "pandas" (Some "pd");
    SImport "numpy" (Some "np");
    SFromImport "numpy" "meshgrid";
    SImport "matplotlib.pyplot" (Some "plt");
    SImport "seaborn" (Some "sns");
    SExpr (call (#"sns" @ "set_style") [EStr "whitegrid"]) ].

Definition cell3 : list stmt :=
  [ assign_x;
    assign_y;
    SExpr (ECall (#"plt" @ "figure") []
             [("figsize", ETuple [EInt 10; EInt 10])]);
    SExpr (ECall (#"plt" @ "scatter") [#"x"; #"y"]
             [("label", EStr "Observed Data")]);
    SExpr (ECall (#"plt" @ "plot") [#"x"; true_relationship; EStr "k"]
             [("label", EStr "True Relationship")]) ]
  ++ axis_labels "x" "y" ++
  [ SExpr (ECall (#"plt" @ "legend") [] [("fontsize", EInt 14)]);
    SExpr (call (#"plt" @ "show") []) ].

Definition cell4 : list stmt :=
  [ SFromImport "sklearn.preprocessing" "PolynomialFeatures";
    SFromImport "sklearn.pipeline" "Pipeline";
    SFromImport "sklearn.linear_model" "LinearRegression" ].

Definition cell5 : list stmt :=
  [ SAssign #"n" (EInt 26);
    SAssign #"coef_holder" (call (#"np" @ "zeros") [ETuple [#"n"; #"n"]]) ].

Definition cell6 : list stmt :=
  [ SFor #"i" (call #"range" [EInt 1; EBin Add #"n" (EInt 1)])
      [ SAssign #"pipe"
          (call #"Pipeline"
             [EList [poly_step #"i";
                     ETuple [EStr "reg"; call #"LinearRegression" []]]]);
        SExpr (call (#"pipe" @ "fit") [x_column; #"y"]);
        SAssign
          (EIndex #"coef_holder"
             [EBin Sub #"i" (EInt 1); ESlice None (Some #"i")])
          (call (#"np" @ "round")
             [(EIndex #"pipe" [EStr "reg"]) @ "coef_"; EInt 3]) ] ].

Definition cell7 : list stmt :=
  [ SExpr (ECall (#"pd" @ "DataFrame") [#"coef_holder"]
             [("columns", power_labels);
              ("index",
               EListComp (EBin Add (call #"str" [#"i"]) (EStr "_deg_poly")) "i"
                 (call #"range" [EInt 1; EBin Add #"n" (EInt 1)]))]) ].

Definition cell8 : list stmt :=
  [ SExpr (ECall (#"plt" @ "figure") []
             [("figsize", ETuple [EInt 12; EInt 12])]);
    SExpr (ECall (#"plt" @ "scatter") [#"x"; #"y"]
             [("alpha", EFloat 8 (-1)); ("label", EStr "Observed Data")]);
    SExpr (ECall (#"plt" @ "plot")
             [#"x"; call (#"pipe" @ "predict") [x_column]; EStr "k"]
             [("label", EBin Add (call #"str" [#"n"]) (EStr "th deg fit"))]);
    SExpr (ECall (#"plt" @ "plot") [#"x"; true_relationship; EStr "k--"]
             [("label", EStr "True Relationship")]) ]
  ++ axis_labels "x" "y" ++
  [ SExpr (ECall (#"plt" @ "legend") [] [("fontsize", EInt 16)]);
    SExpr (call (#"plt" @ "show") []) ].

Definition cell10 : list stmt :=
  [ SFromImport "sklearn.linear_model" "Ridge" ].

(** [np.power(np.sqrt(np.sum(np.power(coefs,2))),2)] *)
Definition norm_expr : expr :=
  call (#"np" @ "power")
    [call (#"np" @ "sqrt")
       [call (#"np" @ "sum") [call (#"np" @ "power") [#"coefs"; EInt 2]]];
     EInt 2].

Definition cell11 : list stmt :=
  [ SAssign #"alphas"
      (call (#"np" @ "arange") [EInt 0; EFloat 1 (-3); EFloat 1 (-6)]);
    SAssign #"norms" (EList []);
    SFor #"a" #"alphas"
      [ SAssign #"pipe"
          (call #"Pipeline"
             [EList [poly_step (EInt 30);
                     ETuple [EStr "ridge";
                             ECall #"Ridge" []
                               [("alpha", #"a"); ("normalize", EBool true)]]]]);
        SExpr (call (#"pipe" @ "fit") [x_column; #"y"]);
        SAssign #"coefs" ((EIndex #"pipe" [EStr "ridge"]) @ "coef_");
        SExpr (call (#"norms" @ "append") [norm_expr]) ] ].

Definition cell12 : list stmt :=
  [ SExpr (ECall (#"plt" @ "figure") []
             [("figsize", ETuple [EInt 10; EInt 10])]);
    SExpr (call (#"plt" @ "plot") [#"alphas"; #"norms"]) ]
  ++ axis_labels "alpha" "2-Norm of beta" ++
  [ SExpr (call (#"plt" @ "xlim")
             [ETuple [ENeg (EFloat 1 (-5)); call #"max" [#"alphas"]]]);
    SExpr (call (#"plt" @ "show") []) ].

Definition cell14 : list stmt :=
  [ SAssign #"age"
      (call (#"np" @ "random" @ "randint") [EInt 20; EInt 40; EInt 100]);
    SAssign #"distance"
      (EBin Add
         (EBin Mul (EInt 3) (call (#"np" @ "random" @ "randn") [EInt 100]))
         (EInt 10));
    SAssign #"tiredness"
      (EBin Add
         (EBin Add #"age" (EBin Mul (EInt 3) #"distance"))
         (EBin Mul (EInt 2) (call (#"np" @ "random" @ "randn") [EInt 100])));
    SAssign #"df"
      (call (#"pd" @ "DataFrame")
         [EDict [(EStr "age", #"age");
                 (EStr "distance", #"distance");
                 (EStr "tiredness", #"tiredness")]]) ].

Definition cell25 : list stmt :=
  [ SFromImport "sklearn.preprocessing" "StandardScaler" ].

Definition cell30 : list stmt := [ assign_x; assign_y ].

Definition cell32 : list stmt :=
  [ SFromImport "sklearn.linear_model" "Lasso" ].

Definition alpha_literals : list expr :=
  [ EFloat 1 (-5); EFloat 1 (-4); EFloat 1 (-3); EFloat 1 (-2); EFloat 1 (-1);
    EInt 1; EInt 10; EInt 100; EInt 1000 ].

(** [np.empty((len(alpha),n))] *)
Definition empty_table : expr :=
  call (#"np" @ "empty") [ETuple [call #"len" [#"alpha"]; #"n"]].

Definition cell33 : list stmt :=
  [ SAssign #"alpha" (EList alpha_literals);
    SAssign #"n" (EInt 10);
    SAssign #"ridge_coefs" empty_table;
    SAssign #"lasso_coefs" empty_table;
    SFor #"i" (call #"range" [call #"len" [#"alpha"]])
      [ SAssign #"ridge_pipe"
          (call #"Pipeline"
             [EList [poly_step #"n";
                     ETuple [EStr "ridge";
                             ECall #"Ridge" []
                               [("alpha", EIndex #"alpha" [#"i"]);
                                ("normalize", EBool true)]]]]);
        SAssign #"lasso_pipe"
          (call #"Pipeline"
             [EList [poly_step #"n";
                     ETuple [EStr "lasso";
                             ECall #"Lasso" []
                               [("alpha", EIndex #"alpha" [#"i"]);
                                ("normalize", EBool true);
                                ("max_iter", EInt 1000000)]]]]);
        SExpr (call (#"ridge_pipe" @ "fit") [x_column; #"y"]);
        SExpr (call (#"lasso_pipe" @ "fit") [x_column; #"y"]);
        SAssign (EIndex #"ridge_coefs" [#"i"; ESlice None None])
          ((EIndex #"ridge_pipe" [EStr "ridge"]) @ "coef_");
        SAssign (EIndex #"lasso_coefs" [#"i"; ESlice None None])
          ((EIndex #"lasso_pipe" [EStr "lasso"]) @ "coef_") ] ].

Definition coef_display (title : string) (table : string) : list stmt :=
  [ SExpr (call #"print" [EStr title]);
    SExpr (ECall (#"pd" @ "DataFrame")
             [call (#"np" @ "round") [#table; EInt 8]]
             [("columns", power_labels); ("index", alpha_labels)]) ].

Definition cell34 : list stmt := coef_display "Ridge Coefficients" "ridge_coefs".
Definition cell35 : list stmt := coef_display "Lasso Coefficients" "lasso_coefs".

Definition cell37 : list stmt := [ SImport "generate" (Some "g") ].

Definition cell38 : list stmt :=
  [ SAssign (ETuple [#"X"; #"y"]) (call (#"g" @ "get_data") []) ].

Definition cell43 : list stmt :=
  [ SExpr (call (#"g" @ "give_how_generated") []) ].

(** A cell left for the student: only the comment [## Code here]. *)
Definition blank : cell := Code [].

(** The 46 cells, in order; the position in this list is the cell number. *)
Definition cells : list cell :=
  [ Markdown;      Code cell1;   Markdown;      Code cell3;   Code cell4;
    Code cell5;    Code cell6;   Code cell7;    Code cell8;   Markdown;
    Code cell10;   Code cell11;  Code cell12;   Markdown;     Code cell14;
    Markdown;      blank;        blank;         Markdown;     blank;
    blank;         Markdown;     blank;         blank;        Markdown;
    Code cell25;   blank;        blank;         Markdown;     Markdown;
    Code cell30;   Markdown;     Code cell32;   Code cell33;  Code cell34;
    Code cell35;   Markdown;     Code cell37;   Code cell38;  blank;
    blank;         blank;        blank;         Code cell43;  Markdown;
    Markdown ].

End Notebook.

(* --------------------------------------------------------------------- *)
(** ** Analyses over the syntax                                           *)
(* --------------------------------------------------------------------- *)

Module Analysis.
Import Py.
Local Open Scope string_scope.
Local Open Scope list_scope.

(** What a name stands for at a program point: the expression last bound to
    it, with the names inside already resolved.  An import binds the alias to
    the module path ([np] to [numpy], [Ridge] to
    [sklearn.linear_model.Ridge]); a loop variable is bound to [each] of its
    iterable. *)
Definition defs := list (string * expr).

Fixpoint lookup (d : defs) (x : string) : option expr :=
  match d with
  | [] => None
  | (k, v) :: r => if String.eqb k x then Some v else lookup r x
  end.

(** Marker for an element of an iterable (not a Python identifier). *)
Definition each (it : expr) : expr := ECall (EName "<each>") [it] [].

(** Replace every name by what it stands for. *)
Fixpoint subst (d : defs) (e : expr) {struct e} : expr :=
  match e with
  | EName x => match lookup d x with Some v => v | None => EName x end
  | EInt _ | EFloat _ _ | EStr _ | EBool _ => e
  | EAttr e' a => EAttr (subst d e') a
  | ECall f args kw =>
      ECall (subst d f) (map (subst d) args)
        (map (fun '(k, v) => (k, subst d v)) kw)
  | EBin op l r => EBin op (subst d l) (subst d r)
  | ENeg e' => ENeg (subst d e')
  | EIndex e' ix => EIndex (subst d e') (map (subst d) ix)
  | ESlice lo hi =>
      ESlice (match lo with Some v => Some (subst d v) | None => None end)
             (match hi with Some v => Some (subst d v) | None => None end)
  | EList es => EList (map (subst d) es)
  | ETuple es => ETuple (map (subst d) es)
  | EDict kvs => EDict (map (fun '(k, v) => (subst d k, subst d v)) kvs)
  | EListComp elt x it =>
      let it' := subst d it in
      EListComp (subst ((x, each it') :: d) elt) x it'
  | ELambda ps body =>
      ELambda ps (subst (map (fun p => (p, EName p)) ps ++ d) body)
  | EAwait e' => EAwait (subst d e')
  | EYield v =>
      EYield (match v with Some v' => Some (subst d v') | None => None end)
  end.

(** Dotted path of a resolved expression: [numpy.random.randn],
    [sklearn.pipeline.Pipeline().fit], [list.append]. *)
Fixpoint path (e : expr) : string :=
  match e with
  | EName x => x
  | EAttr e' a => (path e' ++ "." ++ a)%string
  | ECall f _ _ => (path f ++ "()")%string
  | EIndex e' _ => (path e' ++ "[]")%string
  | EList _ | EListComp _ _ _ => "list"
  | ETuple _ => "tuple"
  | EDict _ => "dict"
  | EStr _ => "str"
  | EInt _ => "int"
  | EFloat _ _ => "float"
  | EBool _ => "bool"
  | _ => "<expr>"
  end.

(** A call as it stands in a cell: the resolved callee path, and the
    arguments both as written and resolved. *)
Record call_site := {
  cs_callee : string;
  cs_args : list expr;
  cs_kw : list (string * expr);
  cs_args_resolved : list expr;
  cs_kw_resolved : list (string * expr)
}.

(** Every call inside an expression, callee before arguments, outer before
    inner. *)
Fixpoint calls (d : defs) (e : expr) {struct e} : list call_site :=
  let opt := fun (v : option expr) =>
    match v with Some v' => calls d v' | None => [] end in
  match e with
  | EName _ | EInt _ | EFloat _ _ | EStr _ | EBool _ => []
  | EAttr e' _ => calls d e'
  | ECall f args kw =>
      {| cs_callee := path (subst d f);
         cs_args := args; cs_kw := kw;
         cs_args_resolved := map (subst d) args;
         cs_kw_resolved := map (fun '(k, v) => (k, subst d v)) kw |}
      :: calls d f
      ++ flat_map (calls d) args
      ++ flat_map (fun '(_, v) => calls d v) kw
  | EBin _ l r => calls d l ++ calls d r
  | ENeg e' => calls d e'
  | EIndex e' ix => calls d e' ++ flat_map (calls d) ix
  | ESlice lo hi => opt lo ++ opt hi
  | EList es | ETuple es => flat_map (calls d) es
  | EDict kvs => flat_map (fun '(k, v) => calls d k ++ calls d v) kvs
  | EListComp elt x it =>
      calls d it ++ calls ((x, each (subst d it)) :: d) elt
  | ELambda ps body => calls (map (fun p => (p, EName p)) ps ++ d) body
  | EAwait e' => calls d e'
  | EYield v => opt v
  end.

(** All sub-expressions, the expression itself first. *)
Fixpoint subexprs (e : expr) {struct e} : list expr :=
  let opt := fun (v : option expr) =>
    match v with Some v' => subexprs v' | None => [] end in
  e ::
  match e with
  | EName _ | EInt _ | EFloat _ _ | EStr _ | EBool _ => []
  | EAttr e' _ | ENeg e' | EAwait e' => subexprs e'
  | ECall f args kw =>
      subexprs f ++ flat_map subexprs args
      ++ flat_map (fun '(_, v) => subexprs v) kw
  | EBin _ l r => subexprs l ++ subexprs r
  | EIndex e' ix => subexprs e' ++ flat_map subexprs ix
  | ESlice lo hi => opt lo ++ opt hi
  | EList es | ETuple es => flat_map subexprs es
  | EDict kvs => flat_map (fun '(k, v) => subexprs k ++ subexprs v) kvs
  | EListComp elt _ it => subexprs it ++ subexprs elt
  | ELambda _ body => subexprs body
  | EYield v => opt v
  end.

(** The expressions a statement evaluates itself (not those of the
    statements nested in it). *)
Definition head_exprs (s : stmt) : list expr :=
  match s with
  | SAssign t v => [v; t]
  | SExpr e => [e]
  | SFor t it _ => [it; t]
  | SWhile c _ | SIf c _ _ => [c]
  | SWith items _ => items
  | SRaise (Some e) | SReturn (Some e) => [e]
  | _ => []
  end.

(** Effect of a statement's head on the bindings. *)
Fixpoint bind_tuple (v : expr) (k : Z) (ts : list expr) (d : defs) : defs :=
  match ts with
  | [] => d
  | EName x :: r => bind_tuple v (k + 1) r ((x, EIndex v [EInt k]) :: d)
  | _ :: r => bind_tuple v (k + 1) r d
  end.

Definition step (d : defs) (s : stmt) : defs :=
  match s with
  | SImport m (Some a) => (a, EName m) :: d
  | SImport m None => (m, EName m) :: d
  | SFromImport m n => (n, EAttr (EName m) n) :: d
  | SAssign (EName x) v => (x, subst d v) :: d
  | SAssign (ETuple ts) v => bind_tuple (subst d v) 0 ts d
  | SFor (EName x) it _ => (x, each (subst d it)) :: d
  | SDef _ name _ _ => (name, EName name) :: d
  | _ => d
  end.

(** A statement occurrence: its cell, the bindings in force before it, the
    statement. *)
Record site := { at_cell : nat; at_defs : defs; at_stmt : stmt }.

(** Statements in textual order, nested ones after the statement that holds
    them, with the bindings threaded through. *)
Fixpoint walk_stmt (c : nat) (d : defs) (s : stmt) {struct s}
  : list site * defs :=
  let block := fix block (d : defs) (ss : list stmt) : list site * defs :=
    match ss with
    | [] => ([], d)
    | s' :: r =>
        let '(v1, d1) := walk_stmt c d s' in
        let '(v2, d2) := block d1 r in
        (v1 ++ v2, d2)
    end in
  let d0 := step d s in
  let here := {| at_cell := c; at_defs := d; at_stmt := s |} in
  match s with
  | SFor _ _ b | SWhile _ b | SWith _ b | SDef _ _ _ b =>
      let '(v, d1) := block d0 b in (here :: v, d1)
  | SIf _ b o =>
      let '(v1, d1) := block d0 b in
      let '(v2, d2) := block d1 o in
      (here :: v1 ++ v2, d2)
  | STry b hs o f =>
      let '(v1, d1) := block d0 b in
      let '(v2, d2) :=
        (fix handlers (d : defs) (hs : list (list stmt)) : list site * defs :=
           match hs with
           | [] => ([], d)
           | h :: r =>
               let '(w1, e1) := block d h in
               let '(w2, e2) := handlers e1 r in
               (w1 ++ w2, e2)
           end) d1 hs in
      let '(v3, d3) := block d2 o in
      let '(v4, d4) := block d3 f in
      (here :: v1 ++ v2 ++ v3 ++ v4, d4)
  | _ => ([here], d0)
  end.

Fixpoint walk_block (c : nat) (d : defs) (ss : list stmt) : list site * defs :=
  match ss with
  | [] => ([], d)
  | s :: r =>
      let '(v1, d1) := walk_stmt c d s in
      let '(v2, d2) := walk_block c d1 r in
      (v1 ++ v2, d2)
  end.

Fixpoint walk_cells (c : nat) (d : defs) (cs : list cell) : list site * defs :=
  match cs with
  | [] => ([], d)
  | Markdown :: r => walk_cells (S c) d r
  | Code body :: r =>
      let '(v, d1) := walk_block c d body in
      let '(w, d2) := walk_cells (S c) d1 r in
      (v ++ w, d2)
  end.

(** The statements of the notebook, run top to bottom from a fresh
    session. *)
Definition sites : list site := fst (walk_cells 0 [] Notebook.cells).

(** The bindings in force once cells [0] to [c] have run. *)
Definition defs_after (c : nat) : defs :=
  snd (walk_cells 0 [] (firstn (S c) Notebook.cells)).

Definition site_calls (s : site) : list (nat * call_site) :=
  map (fun k => (at_cell s, k))
      (flat_map (calls (at_defs s)) (head_exprs (at_stmt s))).

(** Every call of the notebook, with its cell. *)
Definition call_sites : list (nat * call_site) := flat_map site_calls sites.

Definition callees : list (nat * string) :=
  map (fun '(c, k) => (c, cs_callee k)) call_sites.

(** *** Names *)

Definition mem (x : string) (l : list string) : bool := existsb (String.eqb x) l.

Fixpoint dedup_from (seen l : list string) : list string :=
  match l with
  | [] => []
  | x :: r => if mem x seen then dedup_from seen r else x :: dedup_from (x :: seen) r
  end.

(** Each name once, in order of first appearance. *)
Definition dedup (l : list string) : list string := dedup_from [] l.

(** First component of a dotted path: the library a callee comes from. *)
Fixpoint root (s : string) : string :=
  match s with
  | EmptyString => EmptyString
  | String c r =>
      if (Ascii.eqb c "." || Ascii.eqb c "(" || Ascii.eqb c "[")%bool
      then EmptyString
      else String c (root r)
  end.

Fixpoint last_name_from (s acc : string) : string :=
  match s with
  | EmptyString => acc
  | String c r =>
      if Ascii.eqb c "." then last_name_from r EmptyString
      else last_name_from r (acc ++ String c EmptyString)%string
  end.

(** Last component of a dotted path: the function or method called. *)
Definition last_name (s : string) : string := last_name_from s EmptyString.

(** *** Imports *)

Definition imports : list (nat * string * string) :=
  flat_map (fun s =>
              match at_stmt s with
              | SImport m _ => [(at_cell s, m, EmptyString)]
              | SFromImport m n => [(at_cell s, m, n)]
              | _ => []
              end) sites.

(** *** Which library does the numerical work *)

(** numpy functions that make the data and the hyperparameter grid. *)
Definition data_generation : list string :=
  [ "numpy.linspace"; "numpy.arange"; "numpy.random.randn"; "numpy.random.randint" ].

(** numpy functions that allocate, lay out or round a table for display. *)
Definition table_formatting : list string :=
  [ "numpy.zeros"; "numpy.empty"; "numpy.round"; "numpy.linspace().reshape" ].

(** A call that computes numbers from data: anything of numpy or
    scikit-learn that is neither data generation nor table formatting. *)
Definition numerical (callee : string) : bool :=
  (mem (root callee) ["numpy"; "sklearn"]
   && negb (mem callee data_generation)
   && negb (mem callee table_formatting))%bool.

Definition from_sklearn (callee : string) : bool := String.eqb (root callee) "sklearn".

(** The numerical calls that are not calls into scikit-learn. *)
Definition own_numerics : list (nat * string) :=
  filter (fun '(_, f) => (numerical f && negb (from_sklearn f))%bool) callees.

Definition sklearn_calls : list string :=
  dedup (map snd (filter (fun '(_, f) => from_sklearn f) callees)).

(** Does the expression apply a binary operator? *)
Definition has_operator (e : expr) : bool :=
  existsb (fun e' => match e' with EBin _ _ _ => true | _ => false end) (subexprs e).

(** What a statement is for: the name it assigns, the function it calls,
    or the loop it heads. *)
Definition role (d : defs) (s : stmt) : string :=
  match s with
  | SAssign (EName x) _ => (x ++ " =")%string
  | SAssign (EIndex t _) _ => (path t ++ "[] =")%string
  | SExpr (ECall f _ _) => path (subst d f)
  | SFor _ _ _ => "for"
  | _ => "other"
  end.

(** The statements in which an operator is applied. *)
Definition operator_sites : list (nat * string) :=
  flat_map (fun s =>
              if existsb has_operator (head_exprs (at_stmt s))
              then [(at_cell s, role (at_defs s) (at_stmt s))] else [])
           sites.

(** *** Hyperparameters *)

(** A keyword argument of a call, resolved. *)
Fixpoint keyword (k : string) (kw : list (string * expr)) : option expr :=
  match kw with
  | [] => None
  | (k', v) :: r => if String.eqb k k' then Some v else keyword k r
  end.

(** Every construction of a penalised estimator, with its [alpha]. *)
Definition penalised : list (nat * string * option expr) :=
  flat_map (fun '(c, k) =>
              if mem (cs_callee k)
                   ["sklearn.linear_model.Ridge"; "sklearn.linear_model.Lasso"]
              then [(c, cs_callee k, keyword "alpha" (cs_kw_resolved k))]
              else [])
           call_sites.

(** *** The helper module *)

(** Does the statement mention a name that is bound to module [m]? *)
Definition mentions_module (m : string) (s : site) : bool :=
  existsb (fun e =>
             match e with
             | EName x =>
                 match lookup (at_defs s) x with
                 | Some (EName m') => String.eqb m m'
                 | _ => false
                 end
             | _ => false
             end)
          (flat_map subexprs (head_exprs (at_stmt s))).

Definition module_uses (m : string) : list (nat * stmt) :=
  flat_map (fun s => if mentions_module m s then [(at_cell s, at_stmt s)] else [])
           sites.

(** Attributes read off module [m]. *)
Definition module_attributes (m : string) : list (nat * string) :=
  flat_map (fun s =>
              flat_map (fun e =>
                          match e with
                          | EAttr b a =>
                              match subst (at_defs s) b with
                              | EName m' => if String.eqb m m' then [(at_cell s, a)] else []
                              | _ => []
                              end
                          | _ => []
                          end)
                       (flat_map subexprs (head_exprs (at_stmt s))))
           sites.

(** *** Exceptions and warnings *)

(** Statements that can stop an exception from leaving the cell. *)
Definition intercepts (s : stmt) : bool :=
  match s with
  | STry _ _ _ _ | SWith _ _ => true
  | _ => false
  end.

(** Calls that change how warnings or floating-point errors are reported. *)
Definition filters_warnings (callee : string) : bool :=
  (String.eqb (root callee) "warnings"
   || mem (last_name callee)
        ["filterwarnings"; "simplefilter"; "catch_warnings"; "seterr";
         "errstate"; "suppress"])%bool.

Definition unguarded : bool :=
  (forallb (fun s => negb (intercepts (at_stmt s))) sites
   && forallb (fun '(_, f) => negb (filters_warnings f)) callees)%bool.

(** *** Files *)

(** Functions and methods that write outside the session. *)
Definition writes (callee : string) : bool :=
  (mem (last_name callee)
     ["open"; "write"; "writelines"; "savefig"; "imsave"; "save"; "savez";
      "savez_compressed"; "savetxt"; "tofile"; "dump"; "dumps"; "system";
      "to_clipboard"]
   || String.prefix "to_" (last_name callee))%bool.

(** Functions and methods that read from outside the session. *)
Definition reads (callee : string) : bool :=
  (mem (last_name callee)
     ["open"; "load"; "loadtxt"; "genfromtxt"; "fromfile"; "urlopen"; "get";
      "input"]
   || String.prefix "read_" (last_name callee)
   || String.prefix "load_" (last_name callee)
   || String.prefix "fetch_" (last_name callee))%bool.

Definition is_magic (s : stmt) : bool :=
  match s with SMagic _ => true | _ => false end.

Definition session_only : bool :=
  (forallb (fun '(_, f) => negb (writes f)) callees
   && forallb (fun s => negb (intercepts (at_stmt s) || is_magic (at_stmt s))) sites)%bool.

(** *** Threads and coroutines *)

Definition concurrency_modules : list string :=
  [ "threading"; "multiprocessing"; "asyncio"; "concurrent"; "subprocess";
    "joblib"; "signal"; "queue"; "sched" ].

Definition suspends (e : expr) : bool :=
  match e with EAwait _ | EYield _ => true | _ => false end.

Definition sequential : bool :=
  (forallb (fun '(_, m, _) => negb (mem (root m) concurrency_modules)) imports
   && forallb (fun s =>
                 (match at_stmt s with SDef true _ _ _ => false | _ => true end)
                 && negb (existsb suspends
                            (flat_map subexprs (head_exprs (at_stmt s)))))
              sites
   && forallb (fun '(_, k) =>
                 match keyword "n_jobs" (cs_kw k) with Some _ => false | None => true end)
              call_sites)%bool.

(** *** Where fitted data comes from *)

(** The data arguments of every [.fit(...)] call, resolved. *)
Definition fitted_data : list (nat * list expr) :=
  flat_map (fun '(c, k) =>
              if String.eqb (last_name (cs_callee k)) "fit"
              then [(c, cs_args_resolved k)] else [])
           call_sites.

(** Assignments through a subscript: the arrays written in place. *)
Definition slice_assignments : list (nat * expr) :=
  flat_map (fun s =>
              match at_stmt s with
              | SAssign (EIndex t ix) _ => [(at_cell s, EIndex t ix)]
              | _ => []
              end) sites.

(** *** Names and their bindings *)

(** Names Python provides without an import. *)
Definition builtins : list string := [ "range"; "str"; "len"; "max"; "print" ].

(** The names an expression reads, a comprehension or lambda variable
    being bound inside its scope. *)
Fixpoint loads (bound : list string) (e : expr) {struct e} : list string :=
  let opt := fun (v : option expr) =>
    match v with Some v' => loads bound v' | None => [] end in
  match e with
  | EName x => if mem x bound then [] else [x]
  | EInt _ | EFloat _ _ | EStr _ | EBool _ => []
  | EAttr e' _ | ENeg e' | EAwait e' => loads bound e'
  | ECall f args kw =>
      loads bound f ++ flat_map (loads bound) args
      ++ flat_map (fun '(_, v) => loads bound v) kw
  | EBin _ l r => loads bound l ++ loads bound r
  | EIndex e' ix => loads bound e' ++ flat_map (loads bound) ix
  | ESlice lo hi => opt lo ++ opt hi
  | EList es | ETuple es => flat_map (loads bound) es
  | EDict kvs => flat_map (fun '(k, v) => loads bound k ++ loads bound v) kvs
  | EListComp elt x it => loads bound it ++ loads (x :: bound) elt
  | ELambda ps body => loads (ps ++ bound) body
  | EYield v => opt v
  end.

(** The names a target reads: none for a name or a tuple of names, the
    array and the indices for a subscript. *)
Fixpoint target_loads (t : expr) : list string :=
  match t with
  | EName _ => []
  | ETuple ts => flat_map target_loads ts
  | _ => loads [] t
  end.

Definition stmt_loads (s : stmt) : list string :=
  match s with
  | SAssign t v => loads [] v ++ target_loads t
  | SFor t it _ => loads [] it ++ target_loads t
  | _ => flat_map (loads []) (head_exprs s)
  end.

(** Names read at a point where nothing binds them. *)
Definition undefined_names : list (nat * string) :=
  flat_map (fun s =>
              flat_map (fun x =>
                          match lookup (at_defs s) x with
                          | Some _ => []
                          | None => if mem x builtins then [] else [(at_cell s, x)]
                          end)
                       (stmt_loads (at_stmt s)))
           sites.

(** The names bound by the imports, with the cell of the import. *)
Definition imported_names : list (nat * string) :=
  flat_map (fun s =>
              match at_stmt s with
              | SImport _ (Some a) => [(at_cell s, a)]
              | SImport m None => [(at_cell s, m)]
              | SFromImport _ n => [(at_cell s, n)]
              | _ => []
              end) sites.

(** Imported names that no statement reads. *)
Definition unused_imports : list (nat * string) :=
  filter (fun '(_, x) =>
            negb (existsb (fun s => mem x (stmt_loads (at_stmt s))) sites))
         imported_names.

(** The arguments of every call of [callee] in cell [c], resolved. *)
Definition resolved_args (c : nat) (callee : string) : list (list expr) :=
  flat_map (fun '(c', k) =>
              if (Nat.eqb c c' && String.eqb (cs_callee k) callee)%bool
              then [cs_args_resolved k] else [])
           call_sites.

End Analysis.

(* ===================================================================== *)
(** * Part II.  Scalars                                                   *)
(* ===================================================================== *)

(** The arithmetic the cells use on array entries.  [s_ceil] has no value
    on an infinity or a NaN; [s_rint] rounds to the nearest integer, ties to
    even. *)
Class Scalar (A : Type) := {
  s_of_Z : Z -> A;
  s_add : A -> A -> A;
  s_sub : A -> A -> A;
  s_mul : A -> A -> A;
  s_div : A -> A -> A;
  s_sqrt : A -> A;
  s_rint : A -> A;
  s_ceil : A -> option Z
}.

(** The value of the decimal literal [m * 10^e].  In binary64 the quotient
    of two exactly representable integers is correctly rounded, which is how
    Python reads a literal such as [.000001] ([m] and [10^-e] are below
    [2^53] for every literal of the notebook). *)
Definition s_of_dec {A} `{Scalar A} (m e : Z) : A :=
  if (0 <=? e)%Z then s_of_Z (m * 10 ^ e)%Z
  else s_div (s_of_Z m) (s_of_Z (10 ^ (- e))%Z).

(** Nearest integer to [v / 2^k], ties to even. *)
Definition Zrint_shift (v k : Z) : Z :=
  let q := (v / 2 ^ k)%Z in
  let r := (v mod 2 ^ k)%Z in
  match (2 * r ?= 2 ^ k)%Z with
  | Lt => q
  | Gt => (q + 1)%Z
  | Eq => if Z.even q then q else (q + 1)%Z
  end.

(** IEEE 754 binary64, the type of a Python float and of a numpy float64
    entry. *)
Module F64.

Definition prec : Z := 53.
Definition emax : Z := 1024.

Definition t := spec_float.

Definition of_Z (z : Z) : t := binary_normalize prec emax z 0 false.

Definition signed (s : bool) (m : positive) : Z :=
  if s then Zneg m else Zpos m.

Definition ceil (x : t) : option Z :=
  match x with
  | S754_zero _ => Some 0%Z
  | S754_finite s m e =>
      Some (if (0 <=? e)%Z then (signed s m * 2 ^ e)%Z
            else (- ((- signed s m) / 2 ^ (- e)))%Z)
  | _ => None
  end.

Definition rint (x : t) : t :=
  match x with
  | S754_finite s m e =>
      if (0 <=? e)%Z then x
      else
        let n := Zrint_shift (signed s m) (- e) in
        if (n =? 0)%Z then S754_zero s else of_Z n
  | _ => x
  end.

#[global] Instance scalar : Scalar t := {|
  s_of_Z := of_Z;
  s_add := SFadd prec emax;
  s_sub := SFsub prec emax;
  s_mul := SFmul prec emax;
  s_div := SFdiv prec emax;
  s_sqrt := SFsqrt prec emax;
  s_rint := rint;
  s_ceil := ceil
|}.

End F64.

(** Exact arithmetic: the real numbers. *)
Module Exact.

Local Open Scope R_scope.

Definition floor (x : R) : Z := Int_part x.

Definition rint (x : R) : R :=
  let n := floor x in
  let f := x - IZR n in
  if Rlt_dec f (1 / 2) then IZR n
  else if Rlt_dec (1 / 2) f then IZR (n + 1)
  else if Z.even n then IZR n else IZR (n + 1).

#[global] Instance scalar : Scalar R := {|
  s_of_Z := IZR;
  s_add := Rplus;
  s_sub := Rminus;
  s_mul := Rmult;
  s_div := Rdiv;
  s_sqrt := R_sqrt.sqrt;
  s_rint := rint;
  s_ceil := fun x => Some (- floor (- x))%Z
|}.

End Exact.

(* ===================================================================== *)
(** * Part III.  numpy and scikit-learn operations                        *)
(* ===================================================================== *)

(** Exceptions a cell can end with: the two numpy raises on a bad index or
    a bad shape, and whatever a scikit-learn call raises. *)
Inductive exn :=
| IndexError
| ValueError
| LibraryError (msg : string).

Fixpoint py_range_from (lo : Z) (len : nat) : list Z :=
  match len with
  | O => []
  | S k => lo :: py_range_from (lo + 1) k
  end.

(** [range(lo, hi)] *)
Definition py_range (lo hi : Z) : list Z := py_range_from lo (Z.to_nat (hi - lo)).

(** Python indexing of a sequence of length [len]: negative indices count
    from the end. *)
Definition norm_index (len : nat) (i : Z) : exn + nat :=
  let n := Z.of_nat len in
  if ((0 <=? i) && (i <? n))%Z then inr (Z.to_nat i)
  else if ((- n <=? i) && (i <? 0))%Z then inr (Z.to_nat (i + n))
  else inl IndexError.

(** Number of entries selected by the slice [:hi] (or [:]) on [len]
    entries. *)
Definition slice_stop (len : nat) (hi : option Z) : nat :=
  match hi with
  | None => len
  | Some k =>
      if (k <? 0)%Z then Z.to_nat (Z.max 0 (k + Z.of_nat len))
      else Nat.min (Z.to_nat k) len
  end.

Section Numpy.

Context {A : Type} `{Scalar A}.

Definition vector := list A.
Definition matrix := list (list A).

(** [seq[i]] *)
Definition getitem (v : vector) (i : Z) : exn + A :=
  match norm_index (length v) i with
  | inl e => inl e
  | inr k => match nth_error v k with Some a => inr a | None => inl IndexError end
  end.

(** [np.zeros((r,c))] *)
Definition np_zeros (r c : nat) : matrix := repeat (repeat (s_of_Z 0) c) r.

(** [np.empty((r,c))]: the entries are whatever the memory held. *)
Definition np_empty (junk : nat -> nat -> A) (r c : nat) : matrix :=
  map (fun i => map (junk i) (seq 0 c)) (seq 0 r).

(** Assigning a one-dimensional value to a slice of [len] entries: equal
    length, or a single entry repeated. *)
Definition broadcast (v : vector) (len : nat) : exn + vector :=
  if Nat.eqb (length v) len then inr v
  else match v with
       | [a] => inr (repeat a len)
       | _ => inl ValueError
       end.

(** [m[r, :hi] = v]  (and [m[r, :] = v] when [hi] is [None]) *)
Definition setitem_row (m : matrix) (r : Z) (hi : option Z) (v : vector)
  : exn + matrix :=
  match norm_index (length m) r with
  | inl e => inl e
  | inr k =>
      match nth_error m k with
      | None => inl IndexError
      | Some row =>
          let stop := slice_stop (length row) hi in
          match broadcast v stop with
          | inl e => inl e
          | inr w => inr (firstn k m ++ (w ++ skipn stop row) :: skipn (S k) m)
          end
      end
  end.

(** [np.round(a, decimals)] on one entry: scale, round to the nearest
    integer (ties to even), scale back. *)
Definition np_round (decimals : Z) (a : A) : A :=
  let f := s_of_Z (10 ^ decimals) in
  s_div (s_rint (s_mul a f)) f.

(** [np.power(a, k)] on one entry, by repeated multiplication ([a * a] for
    the exponent 2 of the notebook). *)
Fixpoint np_power (a : A) (k : nat) : A :=
  match k with
  | O => s_of_Z 1
  | S k' => s_mul a (np_power a k')
  end.

(** [np.sum(v)], accumulated left to right.  numpy adds a float array in
    blocks; the order matters in binary64 only, and nothing below depends on
    it there. *)
Definition np_sum (v : vector) : A := fold_left s_add v (s_of_Z 0).

(** [np.linspace(start, stop, num)] *)
Definition np_linspace (start stop : A) (num : nat) : vector :=
  match num with
  | O => []
  | S O => [start]
  | S d =>
      let step := s_div (s_sub stop start) (s_of_Z (Z.of_nat d)) in
      map (fun i => s_add (s_mul (s_of_Z i) step) start) (py_range 0 (Z.of_nat d))
      ++ [stop]
  end.

(** [np.arange(start, stop, step)] with float arguments: the length is
    [ceil((stop - start)/step)]; the first two entries are [start] and
    [start + step], entry [i] is [start + i*delta] with
    [delta = (start + step) - start]. *)
Definition arange_length (start stop step : A) : option Z :=
  s_ceil (s_div (s_sub stop start) step).

Definition np_arange (start stop step : A) : exn + vector :=
  match arange_length start stop step with
  | None => inl ValueError
  | Some len =>
      let next := s_add start step in
      let delta := s_sub next start in
      inr (map (fun i =>
                  if (i =? 0)%Z then start
                  else if (i =? 1)%Z then next
                  else s_add start (s_mul (s_of_Z i) delta))
               (py_range 0 len))
  end.

(** [x.reshape(-1,1)] *)
Definition reshape_column (x : vector) : matrix := map (fun a => [a]) x.

(** Elementwise operation on two one-dimensional arrays. *)
Fixpoint zip_with (f : A -> A -> A) (u v : vector) : vector :=
  match u, v with
  | a :: u', b :: v' => f a b :: zip_with f u' v'
  | _, _ => []
  end.

Definition elementwise (f : A -> A -> A) (u v : vector) : exn + vector :=
  if Nat.eqb (length u) (length v) then inr (zip_with f u v)
  else match u, v with
       | [a], _ => inr (map (f a) v)
       | _, [b] => inr (map (fun a => f a b) u)
       | _, _ => inl ValueError
       end.

(** [np.random.randn(n)]: [n] draws from the generator, [draw k] being the
    [k]-th. *)
Definition randn (draw : nat -> A) (n : nat) : vector := map draw (seq 0 n).

(** Products of [k] entries of a row, chosen with repetition, in the order
    of [itertools.combinations_with_replacement]. *)
Fixpoint monomials (k : nat) (row : vector) {struct k} : vector :=
  match k with
  | O => [s_of_Z 1]
  | S k' =>
      (fix from (l : vector) : vector :=
         match l with
         | [] => []
         | a :: r => map (s_mul a) (monomials k' l) ++ from r
         end) row
  end.

(** [PolynomialFeatures(d, include_bias=False).fit_transform(X)]: for each
    row the monomials of degree 1 up to [d] (the notebook's degrees are 1 to
    26, 30 and 10). *)
Definition poly_features (d : Z) (X : matrix) : matrix :=
  map (fun row => flat_map (fun k => monomials k row) (seq 1 (Z.to_nat d))) X.

(** The estimators of [sklearn.linear_model] the notebook builds. *)
Inductive estimator :=
| LinearRegression
| Ridge (alpha : A) (normalize : bool)
| Lasso (alpha : A) (normalize : bool) (max_iter : Z).

(** What [est.fit(X, y)] does: the warnings it issues, then either the
    exception it raises or the fitted [coef_]. *)
Record outcome := { warnings : list string; result : string + vector }.

Definition sklearn := estimator -> matrix -> vector -> outcome.

(** Fitting always works, silently, and yields [coef est X y]. *)
Definition quiet (coef : estimator -> matrix -> vector -> vector) : sklearn :=
  fun est X y => {| warnings := []; result := inr (coef est X y) |}.

(** [coef_] has one entry per column of the design matrix: whenever a fit
    on a non-empty matrix of [n] columns succeeds, [coef_] has [n]
    entries. *)
Definition coef_per_column (sk : sklearn) : Prop :=
  forall est X y c n,
    result (sk est X y) = inr c ->
    X <> [] -> (forall row, In row X -> length row = n) ->
    length c = n.

End Numpy.

Arguments vector : clear implicits.
Arguments matrix : clear implicits.
Arguments estimator : clear implicits.
Arguments outcome : clear implicits.
Arguments sklearn : clear implicits.

(* ===================================================================== *)
(** * Part IV.  The computing cells as programs                           *)
(* ===================================================================== *)

Section Cells.

Context {A : Type} `{Scalar A}.

(** What a cell does that can be observed from outside it: a model is
    fitted, a warning is shown. *)
Inductive event :=
| Fitted (degree : Z) (est : estimator A)
| Warned (msg : string).

(** A computation leaves a trace of events and ends with a value or with an
    exception. *)
Definition M (X : Type) : Type := (list event * (exn + X))%type.

Definition ret {X} (x : X) : M X := ([], inr x).

Definition bind {X Y} (m : M X) (k : X -> M Y) : M Y :=
  match m with
  | (tr, inl e) => (tr, inl e)
  | (tr, inr x) => let '(tr', r) := k x in (tr ++ tr', r)
  end.

Definition lift {X} (r : exn + X) : M X := ([], r).

Notation "x <- m ;; k" := (bind m (fun x => k))
  (at level 61, m at next level, right associativity).
Notation "' p <- m ;; k" := (bind m (fun x => let 'p := x in k))
  (at level 61, p pattern, m at next level, right associativity).

(** [for i in xs: s = body(i, s)] *)
Fixpoint for_each {I S} (xs : list I) (body : I -> S -> M S) (s : S) : M S :=
  match xs with
  | [] => ret s
  | i :: r => s' <- body i s ;; for_each r body s'
  end.

(** Run the computations of a list in order and collect their values. *)
Fixpoint sequence {X} (ms : list (M X)) : M (list X) :=
  match ms with
  | [] => ret []
  | m :: r => x <- m ;; xs <- sequence r ;; ret (x :: xs)
  end.

Variable sk : sklearn A.

(** [pipe = Pipeline([('poly', PolynomialFeatures(d, include_bias=False)),
                      (name, est)]);  pipe.fit(X, y);  pipe[name].coef_] *)
Definition pipe_fit (d : Z) (est : estimator A) (X : matrix A) (y : vector A)
  : M (vector A) :=
  let o := sk est (poly_features d X) y in
  (Fitted d est :: map Warned (warnings o),
   match result o with
   | inl e => inl (LibraryError e)
   | inr c => inr c
   end).

(** Cells 3 and 30:
    [x = np.linspace(-3,3,100);  y = x*(x-1) + 1.2*np.random.randn(100)] *)
Definition synthesize (draw : nat -> A) : M (vector A * vector A) :=
  let x := np_linspace (s_of_Z (-3)) (s_of_Z 3) 100 in
  let x_minus_1 := map (fun a => s_sub a (s_of_Z 1)) x in
  signal <- lift (elementwise s_mul x x_minus_1) ;;
  let noise := map (s_mul (s_of_dec 12 (-1))) (randn draw 100) in
  y <- lift (elementwise s_add signal noise) ;;
  ret (x, y).

(** Cell 5: [n = 26;  coef_holder = np.zeros((n,n))] *)
Definition degrees : Z := 26.
Definition zero_table : matrix A :=
  np_zeros (Z.to_nat degrees) (Z.to_nat degrees).

(** Cell 6 *)
Definition degree_loop (n : Z) (x y : vector A) (coef_holder : matrix A)
  : M (matrix A) :=
  for_each (py_range 1 (n + 1))
    (fun i holder =>
       coef_ <- pipe_fit i LinearRegression (reshape_column x) y ;;
       lift (setitem_row holder (i - 1) (Some i) (map (np_round 3) coef_)))
    coef_holder.

(** [np.power(np.sqrt(np.sum(np.power(coefs,2))),2)] *)
Definition squared_norm (coefs : vector A) : A :=
  np_power (s_sqrt (np_sum (map (fun c => np_power c 2) coefs))) 2.

(** Cell 11: yields [alphas] and [norms]. *)
Definition alpha_sweep (x y : vector A) : M (vector A * vector A) :=
  alphas <- lift (np_arange (s_of_Z 0) (s_of_dec 1 (-3)) (s_of_dec 1 (-6))) ;;
  norms <- for_each alphas
    (fun a norms =>
       coefs <- pipe_fit 30 (Ridge a true) (reshape_column x) y ;;
       ret (norms ++ [squared_norm coefs]))
    [] ;;
  ret (alphas, norms).

(** Cell 33: the list [alpha] and the degree [n]. *)
Definition alpha_list : vector A :=
  [ s_of_dec 1 (-5); s_of_dec 1 (-4); s_of_dec 1 (-3); s_of_dec 1 (-2);
    s_of_dec 1 (-1); s_of_Z 1; s_of_Z 10; s_of_Z 100; s_of_Z 1000 ].

Definition comparison_degree : Z := 10.

Definition comparison_body (x y : vector A) (i : Z)
  (tables : matrix A * matrix A) : M (matrix A * matrix A) :=
  let '(ridge_coefs, lasso_coefs) := tables in
  a1 <- lift (getitem alpha_list i) ;;
  a2 <- lift (getitem alpha_list i) ;;
  ridge_coef_ <- pipe_fit comparison_degree (Ridge a1 true) (reshape_column x) y ;;
  lasso_coef_ <- pipe_fit comparison_degree (Lasso a2 true 1000000)
                   (reshape_column x) y ;;
  ridge_coefs' <- lift (setitem_row ridge_coefs i None ridge_coef_) ;;
  lasso_coefs' <- lift (setitem_row lasso_coefs i None lasso_coef_) ;;
  ret (ridge_coefs', lasso_coefs').

(** Cell 33: yields [ridge_coefs] and [lasso_coefs]. *)
Definition comparison (junk1 junk2 : nat -> nat -> A) (x y : vector A)
  : M (matrix A * matrix A) :=
  let rows := length alpha_list in
  let cols := Z.to_nat comparison_degree in
  for_each (py_range 0 (Z.of_nat rows)) (comparison_body x y)
    (np_empty junk1 rows cols, np_empty junk2 rows cols).

(** Cells 3, 5 and 6 in order. *)
Definition run_degree_loop (draw : nat -> A) : M (matrix A) :=
  '(x, y) <- synthesize draw ;;
  degree_loop degrees x y zero_table.

(** Cells 3 and 11 in order. *)
Definition run_alpha_sweep (draw : nat -> A) : M (vector A * vector A) :=
  '(x, y) <- synthesize draw ;;
  alpha_sweep x y.

(** Cells 30 and 33 in order. *)
Definition run_comparison (draw : nat -> A) (junk1 junk2 : nat -> nat -> A)
  : M (matrix A * matrix A) :=
  '(x, y) <- synthesize draw ;;
  comparison junk1 junk2 x y.

(** The models fitted along a trace, and the warnings shown. *)
Definition fits (tr : list event) : list (Z * estimator A) :=
  flat_map (fun ev => match ev with Fitted d est => [(d, est)] | Warned _ => [] end) tr.

Definition shown (tr : list event) : list string :=
  flat_map (fun ev => match ev with Warned w => [w] | Fitted _ _ => [] end) tr.

(** What reaches the user when library calls are made one after the other
    and nothing intercepts them: every warning up to and including those of
    the first call that raises, and that call's exception. *)
Fixpoint propagate (os : list (outcome A)) : list string * option string :=
  match os with
  | [] => ([], None)
  | o :: r =>
      match result o with
      | inl e => (warnings o, Some e)
      | inr _ => let '(ws, e) := propagate r in (warnings o ++ ws, e)
      end
  end.

End Cells.

Arguments event : clear implicits.
Arguments M : clear implicits.

(* ===================================================================== *)
(** * Part V.  What the loops amount to                                   *)
(* ===================================================================== *)

Section Reference.

Context {A : Type} `{Scalar A}.

Variable sk : sklearn A.

(** The data of cells 3 and 30 as plain lists. *)
Definition x_data : vector A := np_linspace (s_of_Z (-3)) (s_of_Z 3) 100.

Definition y_data (draw : nat -> A) : vector A :=
  zip_with s_add
    (zip_with s_mul x_data (map (fun a => s_sub a (s_of_Z 1)) x_data))
    (map (s_mul (s_of_dec 12 (-1))) (randn draw 100)).

(** A list of pipelines fitted one after the other on the same data. *)
Definition fit_all (jobs : list (Z * estimator A)) (X : matrix A) (y : vector A)
  : M A (list (vector A)) :=
  sequence (map (fun '(d, est) => pipe_fit sk d est X y) jobs).

(** What the library answers to each of them. *)
Definition outcomes (jobs : list (Z * estimator A)) (X : matrix A) (y : vector A)
  : list (outcome A) :=
  map (fun '(d, est) => sk est (poly_features d X) y) jobs.

(** The pipelines of cell 6, of cell 11 and of cell 33, in the order they
    are fitted. *)
Definition degree_jobs (n : Z) : list (Z * estimator A) :=
  map (fun i => (i, LinearRegression)) (py_range 1 (n + 1)).

Definition sweep_jobs (alphas : vector A) : list (Z * estimator A) :=
  map (fun a => (30%Z, Ridge a true)) alphas.

Definition comparison_jobs : list (Z * estimator A) :=
  flat_map (fun a => [(comparison_degree, Ridge a true);
                      (comparison_degree, Lasso a true 1000000)])
           alpha_list.

(** A coefficient row of the table of cell 6: rounded, then zeros up to
    [n] columns. *)
Definition padded (n : nat) (c : vector A) : vector A :=
  map (np_round 3) c ++ repeat (s_of_Z 0) (n - length c).

(** Entries at even and at odd positions. *)
Fixpoint evens {X} (l : list X) : list X :=
  match l with
  | [] => []
  | [a] => [a]
  | a :: _ :: r => a :: evens r
  end.

Definition odds {X} (l : list X) : list X :=
  match l with [] => [] | _ :: r => evens r end.

(** The end of a cell is a numpy index or shape error. *)
Definition shape_error {X} (r : exn + X) : bool :=
  match r with
  | inl IndexError | inl ValueError => true
  | _ => false
  end.

(** The cell ends with the library's exception [e], unchanged, or, when
    there is none, with a value. *)
Definition ends_as {X} (r : exn + X) (o : option string) : Prop :=
  match o with
  | Some e => r = inl (LibraryError e)
  | None => exists v, r = inr v
  end.

(** Every fit succeeds. *)
Definition all_succeed : Prop :=
  forall est X y, exists c, result (sk est X y) = inr c.

End Reference.

(** The functions and methods the notebook calls, in order of first
    appearance. *)
Definition called_functions : list string :=
  [ "seaborn.set_style"; "numpy.linspace"; "numpy.random.randn";
    "matplotlib.pyplot.figure"; "matplotlib.pyplot.scatter";
    "matplotlib.pyplot.plot"; "matplotlib.pyplot.xlabel";
    "matplotlib.pyplot.ylabel"; "matplotlib.pyplot.legend";
    "matplotlib.pyplot.show"; "numpy.zeros"; "range";
    "sklearn.pipeline.Pipeline"; "sklearn.preprocessing.PolynomialFeatures";
    "sklearn.linear_model.LinearRegression";
    "sklearn.pipeline.Pipeline().fit"; "numpy.linspace().reshape";
    "numpy.round"; "pandas.DataFrame"; "str";
    "sklearn.pipeline.Pipeline().predict"; "numpy.arange";
    "sklearn.linear_model.Ridge"; "list.append"; "numpy.power";
    "numpy.sqrt"; "numpy.sum"; "matplotlib.pyplot.xlim"; "max";
    "numpy.random.randint"; "numpy.empty"; "len";
    "sklearn.linear_model.Lasso"; "print"; "generate.get_data";
    "generate.give_how_generated" ]%string.

(** [np.linspace(-3,3,100)], resolved. *)
Definition linspace_call : Py.expr :=
  Py.call (Py.EAttr (Py.EName "numpy") "linspace")
    [Py.ENeg (Py.EInt 3); Py.EInt 3; Py.EInt 100].

(** [np.random.randn(100)], resolved. *)
Definition randn_call : Py.expr :=
  Py.call (Py.EAttr (Py.EAttr (Py.EName "numpy") "random") "randn") [Py.EInt 100].

(** [g.get_data()], resolved. *)
Definition get_data_call : Py.expr :=
  Py.call (Py.EAttr (Py.EName "generate") "get_data") [].

(** [np.random.randint(20,40,100)], resolved. *)
Definition randint_call : Py.expr :=
  Py.call (Py.EAttr (Py.EAttr (Py.EName "numpy") "random") "randint")
    [Py.EInt 20; Py.EInt 40; Py.EInt 100].

(** The arguments [x.reshape(-1,1), y] of a fit, with [x] and [y] replaced
    by what cells 3 and 30 bind them to. *)
Definition synthetic_xy : list Py.expr :=
  [ Py.call (Py.EAttr linspace_call "reshape") [Py.ENeg (Py.EInt 1); Py.EInt 1];
    Py.EBin Py.Add
      (Py.EBin Py.Mul linspace_call (Py.EBin Py.Sub linspace_call (Py.EInt 1)))
      (Py.EBin Py.Mul (Py.EFloat 12 (-1)) randn_call) ].

(** [3*np.random.randn(100)+10], resolved. *)
Definition distance_value : Py.expr :=
  Py.EBin Py.Add (Py.EBin Py.Mul (Py.EInt 3) randn_call) (Py.EInt 10).

(** [age + 3*distance + 2*np.random.randn(100)], resolved. *)
Definition tiredness_value : Py.expr :=
  Py.EBin Py.Add
    (Py.EBin Py.Add randint_call (Py.EBin Py.Mul (Py.EInt 3) distance_value))
    (Py.EBin Py.Mul (Py.EInt 2) randn_call).

(** The alpha of a penalised estimator built inside
    [for i in range(len(alpha))], resolved. *)
Definition listed_alpha : Py.expr :=
  Py.EIndex (Py.EList Notebook.alpha_literals)
    [Analysis.each
       (Py.call (Py.EName "range")
          [Py.call (Py.EName "len") [Py.EList Notebook.alpha_literals]])].

(** The alpha of the estimator built inside [for a in alphas], resolved. *)
Definition swept_alpha : Py.expr :=
  Analysis.each
    (Py.call (Py.EAttr (Py.EName "numpy") "arange")
       [Py.EInt 0; Py.EFloat 1 (-3); Py.EFloat 1 (-6)]).

(** The alphas of cell 11 in binary64: [k * 1e-6] for [k] from 0 to
    1000. *)
Definition alpha_grid : vector F64.t :=
  map (fun k => s_mul (s_of_Z k) (s_of_dec 1 (-6))) (py_range 0 1001).

(** Sum of the squares of the entries. *)
Definition sum_of_squares (coefs : list R) : R :=
  fold_right (fun c acc => (c * c + acc)%R) 0%R coefs.

(** An oracle for examples: [coef_] is all zeros, one per column; a lasso
    fit warns, and raises when [alpha] is at least [limit]. *)
Definition demo_sklearn (limit : F64.t) : sklearn F64.t :=
  fun est X y =>
    let zeros := repeat (F64.of_Z 0) (length (hd [] X)) in
    match est with
    | Lasso a _ _ =>
        {| warnings := ["ConvergenceWarning"%string];
           result := if SFleb limit a then inl "ValueError: lasso"%string
                     else inr zeros |}
    | _ => {| warnings := []; result := inr zeros |}
    end.

(** An oracle whose [coef_] is the first row of the design matrix. *)
Definition first_row : estimator F64.t -> matrix F64.t -> vector F64.t -> vector F64.t :=
  fun _ X _ => hd [] X.

(* ===================================================================== *)
(** * Part V, continued.  The other cells                                 *)
(* ===================================================================== *)

(** [str(i)] for a Python int: its decimal digits, with a sign when
    negative. *)
Definition py_str (i : Z) : string := NilZero.string_of_int (Z.to_int i).

(** Cell 7 and cells 34, 35:
    [["x^" + str(i) for i in range(1,n+1)]] *)
Definition column_labels (n : Z) : list string :=
  map (fun i => ("x^" ++ py_str i)%string) (py_range 1 (n + 1)).

(** Cell 7: [[str(i) + "_deg_poly" for i in range(1,n+1)]] *)
Definition row_labels (n : Z) : list string :=
  map (fun i => (py_str i ++ "_deg_poly")%string) (py_range 1 (n + 1)).

(** Cell 8: [str(n) + "th deg fit"] *)
Definition fit_label (n : Z) : string := (py_str n ++ "th deg fit")%string.

Section Display.

Context {A : Type} `{Scalar A}.

Variable sk : sklearn A.

Notation "x <- m ;; k" := (bind m (fun x => k))
  (at level 61, m at next level, right associativity).

(** A pandas frame: column labels, row labels, and the rows. *)
Record frame := {
  columns : list string;
  index : list string;
  values : matrix A
}.

(** [pd.DataFrame(data, columns=..., index=...)] on a two-dimensional
    array: the labels must be as many as the columns and the rows. *)
Definition pd_DataFrame (data : matrix A) (cols idx : list string) : exn + frame :=
  if (Nat.eqb (length idx) (length data)
      && forallb (fun row => Nat.eqb (length row) (length cols)) data)%bool
  then inr {| columns := cols; index := idx; values := data |}
  else inl ValueError.

(** [pd.DataFrame({name: array, ...})]: the arrays must have the same
    length; row [k] holds entry [k] of each, and the rows are labelled
    [0, 1, ...]. *)
Definition pd_from_dict (cols : list (string * vector A)) : exn + frame :=
  match cols with
  | [] => inr {| columns := []; index := []; values := [] |}
  | (_, c0) :: _ =>
      if forallb (fun c => Nat.eqb (length (snd c)) (length c0)) cols
      then inr {| columns := map fst cols;
                  index := map py_str (py_range 0 (Z.of_nat (length c0)));
                  values := map (fun k =>
                                   flat_map (fun c =>
                                               match nth_error (snd c) k with
                                               | Some a => [a]
                                               | None => []
                                               end) cols)
                                (seq 0 (length c0)) |}
      else inl ValueError
  end.

(** Cell 6 with the variable [pipe] it leaves behind: the pipeline of the
    last iteration, here its degree and estimator. *)
Definition degree_loop_pipe (n : Z) (x y : vector A)
           (session : option (Z * estimator A) * matrix A)
  : M A (option (Z * estimator A) * matrix A) :=
  for_each (py_range 1 (n + 1))
    (fun i session =>
       let coef_holder := snd session in
       coef_ <- pipe_fit sk i LinearRegression (reshape_column x) y ;;
       coef_holder' <- lift (setitem_row coef_holder (i - 1) (Some i)
                               (map (np_round 3) coef_)) ;;
       ret (Some (i, LinearRegression), coef_holder'))
    session.

(** Cell 7: the frame shown under cell 6. *)
Definition coef_frame (n : Z) (coef_holder : matrix A) : M A frame :=
  lift (pd_DataFrame coef_holder (column_labels n) (row_labels n)).

(** Cells 3, 5, 6 and 7 in order. *)
Definition run_coef_frame (draw : nat -> A) : M A frame :=
  coef_holder <- run_degree_loop sk draw ;;
  coef_frame degrees coef_holder.

(** Cells 34 and 35: [["alpha=" + str(a) for a in alpha]], [repr] being
    [str] on a list entry, and the frame of a table rounded to 8
    decimals. *)
Definition alpha_labels (repr : A -> string) : list string :=
  map (fun a => ("alpha=" ++ repr a)%string) alpha_list.



(** Cell 14: [age], [distance], [tiredness] and the frame [df].
    [age_draw] gives the integers of [np.random.randint(20,40,100)],
    [draw1] and [draw2] the two samples of [np.random.randn(100)]. *)
Definition walk_data (age_draw : nat -> Z) (draw1 draw2 : nat -> A)
  : M A (vector A * vector A * vector A * frame) :=
  let age := map (fun k => s_of_Z (age_draw k)) (seq 0 100) in
  let distance :=
    map (fun e => s_add (s_mul (s_of_Z 3) e) (s_of_Z 10)) (randn draw1 100) in
  partial <- lift (elementwise s_add age (map (s_mul (s_of_Z 3)) distance)) ;;
  tiredness <- lift (elementwise s_add partial
                       (map (s_mul (s_of_Z 2)) (randn draw2 100))) ;;
  df <- lift (pd_from_dict [("age"%string, age); ("distance"%string, distance);
                            ("tiredness"%string, tiredness)]) ;;
  ret (age, distance, tiredness, df).

(** How many library calls are made when they are made one after the
    other until one raises: all of them, or those up to and including the
    first that raises. *)
Fixpoint attempted (os : list (outcome A)) : nat :=
  match os with
  | [] => O
  | o :: r => match result o with inl _ => 1%nat | inr _ => S (attempted r) end
  end.

End Display.

Arguments frame : clear implicits.


(* ===================================================================== *)
(** * Part VI.  Properties                                                *)
(* ===================================================================== *)

(** ** Ranges, indices and slices *)

Lemma py_range_from_length (lo : Z) (len : nat) :
  length (py_range_from lo len) = len.
Proof.
  revert lo; induction len as [|k IH]; intros lo; simpl; [reflexivity|].
  now rewrite IH.
Qed.

Lemma py_range_from_In (lo : Z) (len : nat) (i : Z) :
  In i (py_range_from lo len) <-> (lo <= i < lo + Z.of_nat len)%Z.
Proof.
  revert lo; induction len as [|k IH]; intros lo; simpl.
  - split; [tauto | lia].
  - rewrite IH. lia.
Qed.

Lemma py_range_In (lo hi i : Z) :
  In i (py_range lo hi) <-> (lo <= i < hi)%Z.
Proof.
  unfold py_range. rewrite py_range_from_In. lia.
Qed.

Lemma norm_index_nat (len k : nat) :
  (k < len)%nat -> norm_index len (Z.of_nat k) = inr k.
Proof.
  intros Hk. unfold norm_index.
  replace ((0 <=? Z.of_nat k) && (Z.of_nat k <? Z.of_nat len))%Z with true.
  - now rewrite Nat2Z.id.
  - symmetry. apply andb_true_iff. split; [apply Z.leb_le | apply Z.ltb_lt]; lia.
Qed.

Lemma slice_stop_nat (len k : nat) :
  (k <= len)%nat -> slice_stop len (Some (Z.of_nat k)) = k.
Proof.
  intros Hk. unfold slice_stop.
  destruct (Z.ltb_spec (Z.of_nat k) 0); [lia|].
  rewrite Nat2Z.id. lia.
Qed.

Section Arrays.

Context {A : Type} `{Scalar A}.

Lemma getitem_nat (v : vector A) (k : nat) (a : A) :
  nth_error v k = Some a -> getitem v (Z.of_nat k) = inr a.
Proof.
  intros Hk. unfold getitem.
  rewrite norm_index_nat, Hk; [reflexivity|].
  apply nth_error_Some. congruence.
Qed.

Lemma broadcast_same (v : vector A) : broadcast v (length v) = inr v.
Proof.
  unfold broadcast. now rewrite Nat.eqb_refl.
Qed.

(** Writing a prefix of the first untouched row of a table. *)
Lemma setitem_row_next (done rest : matrix A) (row v : vector A) (k : nat) :
  length done = k -> (length v <= length row)%nat ->
  setitem_row (done ++ row :: rest) (Z.of_nat k)
              (Some (Z.of_nat (length v))) v
  = inr (done ++ (v ++ skipn (length v) row) :: rest).
Proof.
  intros Hk Hv. unfold setitem_row.
  rewrite norm_index_nat by (rewrite length_app; simpl; lia).
  rewrite nth_error_app2 by lia.
  replace (k - length done)%nat with 0%nat by lia. cbn [nth_error].
  rewrite slice_stop_nat by exact Hv.
  rewrite broadcast_same.
  rewrite firstn_app, firstn_all2 by lia.
  replace (k - length done)%nat with 0%nat by lia. cbn [firstn].
  rewrite app_nil_r.
  replace (S k) with (length (done ++ [row])) by (rewrite length_app; simpl; lia).
  replace (done ++ row :: rest) with ((done ++ [row]) ++ rest)
    by (now rewrite <- app_assoc).
  rewrite skipn_app, skipn_all, Nat.sub_diag. reflexivity.
Qed.

(** Writing a whole row. *)
Lemma setitem_row_whole (done rest : matrix A) (row v : vector A) (k : nat) :
  length done = k -> length v = length row ->
  setitem_row (done ++ row :: rest) (Z.of_nat k) None v
  = inr (done ++ v :: rest).
Proof.
  intros Hk Hv. unfold setitem_row.
  rewrite norm_index_nat by (rewrite length_app; simpl; lia).
  rewrite nth_error_app2 by lia.
  replace (k - length done)%nat with 0%nat by lia. cbn [nth_error slice_stop].
  rewrite <- Hv, broadcast_same.
  rewrite Hv, skipn_all, app_nil_r.
  rewrite firstn_app, firstn_all2 by lia.
  replace (k - length done)%nat with 0%nat by lia. cbn [firstn].
  rewrite app_nil_r.
  replace (S k) with (length (done ++ [row])) by (rewrite length_app; simpl; lia).
  replace (done ++ row :: rest) with ((done ++ [row]) ++ rest)
    by (now rewrite <- app_assoc).
  rewrite skipn_app, skipn_all, Nat.sub_diag. reflexivity.
Qed.

Lemma monomials_single (k : nat) (a : A) : length (monomials k [a]) = 1%nat.
Proof.
  induction k as [|k IH]; [reflexivity|].
  cbn [monomials]. now rewrite app_nil_r, length_map.
Qed.

(** A degree-[d] expansion of one column has [d] columns. *)
Lemma poly_features_columns (d : Z) (x : vector A) (row : vector A) :
  In row (poly_features d (reshape_column x)) -> length row = Z.to_nat d.
Proof.
  unfold poly_features, reshape_column. rewrite map_map.
  intros Hin. apply in_map_iff in Hin. destruct Hin as [a [<- _]].
  generalize 1%nat. induction (Z.to_nat d) as [|n IH]; intros s; [reflexivity|].
  cbn [seq flat_map]. rewrite length_app, monomials_single, IH. reflexivity.
Qed.

Lemma poly_features_nonempty (d : Z) (x : vector A) :
  x <> [] -> poly_features d (reshape_column x) <> [].
Proof.
  destruct x; [congruence | discriminate].
Qed.

Lemma x_data_length : length (x_data (A := A)) = 100%nat.
Proof.
  unfold x_data, np_linspace.
  rewrite length_app, length_map. unfold py_range.
  rewrite py_range_from_length. reflexivity.
Qed.

Lemma zip_with_length (f : A -> A -> A) (u v : vector A) :
  length u = length v -> length (zip_with f u v) = length u.
Proof.
  revert v; induction u as [|a u IH]; intros [|b v] Huv; simpl in *;
    try reflexivity; try discriminate.
  f_equal. apply IH. congruence.
Qed.

Lemma elementwise_same (f : A -> A -> A) (u v : vector A) :
  length u = length v -> elementwise f u v = inr (zip_with f u v).
Proof.
  intros Huv. unfold elementwise. now rewrite Huv, Nat.eqb_refl.
Qed.

End Arrays.

(** ** What a slice assignment leaves alone *)

Section Frame.

Context {A : Type} `{Scalar A}.

Lemma broadcast_length (v w : vector A) (len : nat) :
  broadcast v len = inr w -> length w = len.
Proof.
  unfold broadcast. destruct (Nat.eqb_spec (length v) len) as [Heq|_].
  - intros [= <-]. exact Heq.
  - destruct v as [|a [|b v]]; try discriminate.
    intros [= <-]. apply repeat_length.
Qed.

Lemma slice_stop_le (len : nat) (hi : option Z) : (slice_stop len hi <= len)%nat.
Proof.
  unfold slice_stop. destruct hi as [k|]; [|lia].
  destruct (Z.ltb_spec k 0); lia.
Qed.

(** An assignment [m[r, :hi] = v] that succeeds changes nothing but the
    first [slice_stop] entries of row [r]: the table keeps its shape, every
    other row is untouched, and so is the rest of row [r]. *)
Lemma setitem_row_frame (m m' : matrix A) (r : Z) (hi : option Z) (v : vector A) :
  setitem_row m r hi v = inr m' ->
  exists k row row',
    norm_index (length m) r = inr k
    /\ nth_error m k = Some row
    /\ nth_error m' k = Some row'
    /\ length m' = length m
    /\ length row' = length row
    /\ (forall r', r' <> k -> nth_error m' r' = nth_error m r')
    /\ (forall j, (slice_stop (length row) hi <= j)%nat ->
                  nth_error row' j = nth_error row j).
Proof.
  unfold setitem_row.
  destruct (norm_index (length m) r) as [e|k] eqn:Hk; [discriminate|].
  destruct (nth_error m k) as [row|] eqn:Hrow; [|discriminate].
  destruct (broadcast v (slice_stop (length row) hi)) as [e|w] eqn:Hw; [discriminate|].
  intros Heq.
  assert (Hm' : m' = firstn k m ++ (w ++ skipn (slice_stop (length row) hi) row)
                                    :: skipn (S k) m) by congruence.
  clear Heq. subst m'. apply broadcast_length in Hw.
  pose proof (slice_stop_le (length row) hi) as Hstop.
  assert (Hlt : (k < length m)%nat) by (apply nth_error_Some; congruence).
  assert (Hfirst : length (firstn k m) = k) by (rewrite length_firstn; lia).
  exists k, row, (w ++ skipn (slice_stop (length row) hi) row).
  split; [first [reflexivity | assumption]|].
  split; [first [reflexivity | assumption]|].
  split; [|split; [|split; [|split]]].
  - rewrite nth_error_app2 by lia. now rewrite Hfirst, Nat.sub_diag.
  - rewrite length_app. cbn [length]. rewrite length_skipn, Hfirst. lia.
  - rewrite length_app, length_skipn. lia.
  - intros r' Hr'. destruct (Nat.lt_ge_cases r' k) as [Hlow|Hhigh].
    + rewrite nth_error_app1 by lia. rewrite nth_error_firstn.
      now destruct (Nat.ltb_spec r' k); [|lia].
    + rewrite nth_error_app2 by lia. rewrite Hfirst.
      destruct (r' - k)%nat as [|d] eqn:Hd; [lia|]. cbn [nth_error].
      rewrite nth_error_skipn. f_equal. lia.
  - intros j Hj. rewrite nth_error_app2 by lia.
    rewrite nth_error_skipn. f_equal. lia.
Qed.

End Frame.

(** ** The trace-and-exception monad *)

Section Monad.

Context {A : Type} `{Scalar A}.

Lemma bind_ret_l {X Y} (x : X) (k : X -> M A Y) : bind (ret x) k = k x.
Proof.
  unfold bind, ret. now destruct (k x).
Qed.

Lemma bind_ret_r {X} (m : M A X) : bind m ret = m.
Proof.
  destruct m as [tr [e|x]]; simpl; [reflexivity|].
  now rewrite app_nil_r.
Qed.

Lemma bind_assoc {X Y Z} (m : M A X) (k : X -> M A Y) (h : Y -> M A Z) :
  bind (bind m k) h = bind m (fun x => bind (k x) h).
Proof.
  destruct m as [tr [e|x]]; simpl; [reflexivity|].
  destruct (k x) as [tr1 [e|y]]; simpl; [reflexivity|].
  destruct (h y) as [tr2 r]. now rewrite app_assoc.
Qed.

Lemma bind_lift_ok {X Y} (x : X) (k : X -> M A Y) : bind (lift (inr x)) k = k x.
Proof.
  apply bind_ret_l.
Qed.

Lemma bind_raise {X Y} (tr : list (event A)) (e : exn) (k : X -> M A Y) :
  bind (tr, inl e) k = (tr, inl e).
Proof.
  reflexivity.
Qed.

Lemma bind_ext {X Y} (m : M A X) (k k' : X -> M A Y) :
  (forall x, k x = k' x) -> bind m k = bind m k'.
Proof.
  intros Hk. destruct m as [tr [e|x]]; simpl; [reflexivity|]. now rewrite Hk.
Qed.

(** A step that leaves a trace and a value, then the rest. *)
Lemma bind_step {X Y} (tr : list (event A)) (x : X) (k : X -> M A Y) :
  bind (tr, inr x) k = (tr ++ fst (k x), snd (k x)).
Proof.
  simpl. now destruct (k x).
Qed.

Lemma fits_app (t1 t2 : list (event A)) : fits (t1 ++ t2) = fits t1 ++ fits t2.
Proof.
  unfold fits. apply flat_map_app.
Qed.

Lemma shown_app (t1 t2 : list (event A)) : shown (t1 ++ t2) = shown t1 ++ shown t2.
Proof.
  unfold shown. apply flat_map_app.
Qed.

Lemma fits_warned (ws : list string) : fits (map (@Warned A) ws) = [].
Proof.
  induction ws as [|w ws IH]; simpl; [reflexivity | exact IH].
Qed.

Lemma shown_warned (ws : list string) : shown (map (@Warned A) ws) = ws.
Proof.
  induction ws as [|w ws IH]; simpl; [reflexivity | now rewrite IH].
Qed.

End Monad.

(** ** The loops *)

Section Loops.

Context {A : Type} `{Scalar A}.

Variable sk : sklearn A.

Lemma bind_ext_on {X Y} (m : M A X) (k k' : X -> M A Y) :
  (forall tr x, m = (tr, inr x) -> k x = k' x) -> bind m k = bind m k'.
Proof.
  intros Hk. destruct m as [tr [e|x]]; simpl; [reflexivity|].
  now rewrite (Hk tr x eq_refl).
Qed.

Lemma pipe_fit_returns (d : Z) (est : estimator A) (X : matrix A) (y c : vector A)
      (tr : list (event A)) :
  pipe_fit sk d est X y = (tr, inr c) ->
  result (sk est (poly_features d X) y) = inr c.
Proof.
  unfold pipe_fit. destruct (result (sk est (poly_features d X) y)); congruence.
Qed.

Lemma synthesize_ok (draw : nat -> A) :
  synthesize draw = ret (x_data, y_data draw).
Proof.
  unfold synthesize.
  rewrite elementwise_same by (now rewrite length_map).
  rewrite bind_lift_ok.
  rewrite elementwise_same.
  - rewrite bind_lift_ok. reflexivity.
  - rewrite zip_with_length by (now rewrite length_map).
    unfold randn. rewrite !length_map, length_seq.
    apply x_data_length.
Qed.

Lemma fit_all_cons (d : Z) (est : estimator A) (jobs : list (Z * estimator A))
      (X : matrix A) (y : vector A) :
  fit_all sk ((d, est) :: jobs) X y =
  bind (pipe_fit sk d est X y)
       (fun c => bind (fit_all sk jobs X y) (fun cs => ret (c :: cs))).
Proof.
  reflexivity.
Qed.

Lemma skipn_repeat (a : A) (k n : nat) : skipn k (repeat a n) = repeat a (n - k).
Proof.
  revert k; induction n as [|n IH]; intros [|k]; simpl; try reflexivity.
  apply IH.
Qed.

(** The degree loop from iteration [j + 1] on, the first [j] rows being
    written: it fits the remaining pipelines in order and pads each
    coefficient vector into its row. *)
Lemma degree_loop_from (N : nat) (x y : vector A) :
  coef_per_column sk -> x <> [] ->
  forall (m j : nat) (done : matrix A),
    length done = j -> (j + m <= N)%nat ->
    for_each (py_range_from (Z.of_nat j + 1) m)
      (fun i holder =>
         bind (pipe_fit sk i LinearRegression (reshape_column x) y)
              (fun coef_ =>
                 lift (setitem_row holder (i - 1) (Some i) (map (np_round 3) coef_))))
      (done ++ repeat (repeat (s_of_Z 0) N) (N - j))
    = bind (fit_all sk (map (fun i => (i, LinearRegression))
                            (py_range_from (Z.of_nat j + 1) m))
                    (reshape_column x) y)
           (fun cs => ret (done ++ map (padded N) cs
                                ++ repeat (repeat (s_of_Z 0) N) (N - j - m))).
Proof.
  intros Hsk Hx. induction m as [|m IH]; intros j done Hj Hm.
  - cbn [py_range_from for_each map]. unfold fit_all. cbn [map sequence].
    rewrite bind_ret_l. now rewrite Nat.sub_0_r.
  - cbn [py_range_from for_each map]. rewrite fit_all_cons, !bind_assoc.
    apply bind_ext_on. intros tr c Hc.
    apply pipe_fit_returns in Hc.
    assert (Hlen : length c = S j).
    { rewrite (Hsk _ _ _ _ (Z.to_nat (Z.of_nat j + 1)) Hc); [lia | |].
      - now apply poly_features_nonempty.
      - apply poly_features_columns. }
    replace (Z.of_nat j + 1 - 1)%Z with (Z.of_nat j) by lia.
    replace (Z.of_nat j + 1)%Z with (Z.of_nat (length (map (np_round 3) c)))
      by (rewrite length_map; lia).
    replace (N - j)%nat with (S (N - S j)) by lia. cbn [repeat].
    rewrite setitem_row_next;
      [| exact Hj | rewrite length_map, repeat_length; lia].
    rewrite bind_lift_ok, length_map, skipn_repeat.
    rewrite bind_assoc.
    replace (done ++ (map (np_round 3) c ++ repeat (s_of_Z 0) (N - length c))
                  :: repeat (repeat (s_of_Z 0) N) (N - S j))
      with ((done ++ [padded N c]) ++ repeat (repeat (s_of_Z 0) N) (N - S j))
      by (now rewrite <- app_assoc).
    rewrite Hlen.
    replace (Z.of_nat (S j))%Z with (Z.of_nat j + 1)%Z by lia.
    replace (Z.of_nat j + 1 + 1)%Z with (Z.of_nat (S j) + 1)%Z by lia.
    rewrite IH by (rewrite ?length_app; simpl; lia).
    apply bind_ext. intros cs. rewrite bind_ret_l.
    cbn [map]. rewrite <- app_assoc. cbn [app].
    reflexivity.
Qed.

Lemma x_data_nonempty : x_data (A := A) <> [].
Proof.
  intros Hx. pose proof (x_data_length (A := A)) as Hl.
  rewrite Hx in Hl. discriminate.
Qed.

(** Cell 6 on the zero table of cell 5. *)
Lemma degree_loop_normal (x y : vector A) :
  coef_per_column sk -> x <> [] ->
  degree_loop sk degrees x y zero_table
  = bind (fit_all sk (degree_jobs degrees) (reshape_column x) y)
         (fun cs => ret (map (padded (Z.to_nat degrees)) cs)).
Proof.
  intros Hsk Hx.
  pose proof (degree_loop_from (N := Z.to_nat degrees) y Hsk Hx
                (Z.to_nat degrees) [] eq_refl (le_n _))
    as Hloop.
  rewrite Nat.sub_diag in Hloop. cbn [repeat app] in Hloop.
  unfold degree_loop, zero_table, np_zeros, degree_jobs, py_range.
  replace (degrees + 1 - 1)%Z with degrees by lia.
  etransitivity; [exact Hloop|].
  apply bind_ext. intros cs. now rewrite app_nil_r.
Qed.

(** The loop of cell 11 with [norms] already holding [acc]. *)
Lemma alpha_sweep_from (x y : vector A) (alphas : vector A) :
  forall acc : vector A,
    for_each alphas
      (fun a norms =>
         bind (pipe_fit sk 30 (Ridge a true) (reshape_column x) y)
              (fun coefs => ret (norms ++ [squared_norm coefs])))
      acc
    = bind (fit_all sk (sweep_jobs alphas) (reshape_column x) y)
           (fun cs => ret (acc ++ map squared_norm cs)).
Proof.
  induction alphas as [|a alphas IH]; intros acc.
  - cbn [for_each sweep_jobs map]. unfold fit_all. cbn [map sequence].
    now rewrite bind_ret_l, app_nil_r.
  - cbn [for_each sweep_jobs map]. fold (sweep_jobs alphas).
    rewrite fit_all_cons, !bind_assoc.
    apply bind_ext. intros c.
    rewrite bind_ret_l, IH, bind_assoc.
    apply bind_ext. intros cs. rewrite bind_ret_l.
    cbn [map]. now rewrite <- app_assoc.
Qed.

Lemma alpha_sweep_normal (x y : vector A) :
  alpha_sweep sk x y
  = bind (lift (np_arange (s_of_Z 0) (s_of_dec 1 (-3)) (s_of_dec 1 (-6))))
         (fun alphas =>
            bind (fit_all sk (sweep_jobs alphas) (reshape_column x) y)
                 (fun cs => ret (alphas, map squared_norm cs))).
Proof.
  unfold alpha_sweep. apply bind_ext. intros alphas.
  rewrite alpha_sweep_from, bind_assoc.
  apply bind_ext. intros cs. now rewrite bind_ret_l.
Qed.

Lemma skipn_cons_nth {X} (l : list X) (j : nat) :
  (j < length l)%nat ->
  exists a, nth_error l j = Some a /\ skipn j l = a :: skipn (S j) l.
Proof.
  revert j; induction l as [|b l IH]; intros [|j] Hj; simpl in *; try lia.
  - exists b. now split.
  - destruct (IH j) as [a [Ha Hs]]; [lia|]. exists a. split; [exact Ha|].
    rewrite Hs. now destruct l.
Qed.

Lemma evens_cons {X} (a : X) (l : list X) : evens (a :: l) = a :: odds l.
Proof.
  now destruct l.
Qed.

Lemma np_empty_shape (junk : nat -> nat -> A) (r c : nat) :
  length (np_empty junk r c) = r
  /\ Forall (fun row => length row = c) (np_empty junk r c).
Proof.
  unfold np_empty. split.
  - now rewrite length_map, length_seq.
  - apply Forall_forall. intros row Hrow.
    apply in_map_iff in Hrow. destruct Hrow as [i [<- _]].
    now rewrite length_map, length_seq.
Qed.

(** The loop of cell 33 from iteration [j] on, the first [j] rows of both
    tables being written. *)
Lemma comparison_from (x y : vector A) :
  coef_per_column sk -> x <> [] ->
  forall (m j : nat) (rdone ldone rrest lrest : matrix A),
    length rdone = j -> length ldone = j ->
    length rrest = m -> length lrest = m ->
    (j + m = length (alpha_list (A := A)))%nat ->
    Forall (fun row => length row = Z.to_nat comparison_degree) rrest ->
    Forall (fun row => length row = Z.to_nat comparison_degree) lrest ->
    for_each (py_range_from (Z.of_nat j) m) (comparison_body sk x y)
             (rdone ++ rrest, ldone ++ lrest)
    = bind (fit_all sk
              (flat_map (fun a => [(comparison_degree, Ridge a true);
                                   (comparison_degree, Lasso a true 1000000)])
                        (skipn j alpha_list))
              (reshape_column x) y)
           (fun cs => ret (rdone ++ evens cs, ldone ++ odds cs)).
Proof.
  intros Hsk Hx.
  assert (Hcols : forall est c,
             result (sk est (poly_features comparison_degree (reshape_column x)) y) = inr c ->
             length c = Z.to_nat comparison_degree).
  { intros est c Hc.
    apply (Hsk _ _ _ _ (Z.to_nat comparison_degree) Hc).
    - now apply poly_features_nonempty.
    - apply poly_features_columns. }
  induction m as [|m IH]; intros j rdone ldone rrest lrest Hr Hl Hrr Hlr Hjm Frr Flr.
  - destruct rrest; [|discriminate]. destruct lrest; [|discriminate].
    rewrite skipn_all2 by lia.
    cbn [py_range_from for_each flat_map]. unfold fit_all. cbn [map sequence].
    rewrite bind_ret_l. cbn [evens odds]. now rewrite !app_nil_r.
  - destruct rrest as [|r0 rrest]; [discriminate|].
    destruct lrest as [|l0 lrest]; [discriminate|].
    destruct (@skipn_cons_nth _ (alpha_list (A := A)) j) as [a [Ha Hs]]; [lia|].
    rewrite Hs. cbn [py_range_from for_each flat_map app].
    rewrite !fit_all_cons.
    unfold comparison_body at 1.
    rewrite (getitem_nat _ _ Ha), !bind_lift_ok, !bind_assoc.
    apply bind_ext_on. intros tr1 c1 Hc1.
    apply pipe_fit_returns, Hcols in Hc1.
    rewrite !bind_assoc.
    apply bind_ext_on. intros tr2 c2 Hc2.
    apply pipe_fit_returns, Hcols in Hc2.
    inversion Frr as [|? ? Hr0 Frr']; subst.
    inversion Flr as [|? ? Hl0 Flr']; subst.
    rewrite setitem_row_whole by (reflexivity || congruence).
    rewrite bind_lift_ok.
    rewrite setitem_row_whole by (congruence).
    rewrite bind_lift_ok, bind_ret_l.
    replace (rdone ++ c1 :: rrest) with ((rdone ++ [c1]) ++ rrest)
      by (now rewrite <- app_assoc).
    replace (ldone ++ c2 :: lrest) with ((ldone ++ [c2]) ++ lrest)
      by (now rewrite <- app_assoc).
    replace (Z.of_nat (length rdone) + 1)%Z with (Z.of_nat (S (length rdone))) by lia.
    rewrite IH; try assumption;
      try (rewrite length_app; simpl; lia); try (simpl in *; lia).
    rewrite !bind_assoc. apply bind_ext. intros cs.
    rewrite !bind_ret_l. unfold odds at 2. rewrite !evens_cons.
    now rewrite <- !app_assoc.
Qed.

Lemma comparison_normal (junk1 junk2 : nat -> nat -> A) (x y : vector A) :
  coef_per_column sk -> x <> [] ->
  comparison sk junk1 junk2 x y
  = bind (fit_all sk comparison_jobs (reshape_column x) y)
         (fun cs => ret (evens cs, odds cs)).
Proof.
  intros Hsk Hx. unfold comparison, py_range, comparison_jobs.
  rewrite Z.sub_0_r, Nat2Z.id.
  destruct (np_empty_shape junk1 (length (alpha_list (A := A))) (Z.to_nat comparison_degree))
    as [R1 R2].
  destruct (np_empty_shape junk2 (length (alpha_list (A := A))) (Z.to_nat comparison_degree))
    as [L1 L2].
  exact (@comparison_from x y Hsk Hx (length (alpha_list (A := A))) 0%nat [] []
           _ _ eq_refl eq_refl R1 L1 eq_refl R2 L2).
Qed.

Lemma shown_fitted (d : Z) (est : estimator A) (tr : list (event A)) :
  shown (Fitted d est :: tr) = shown tr.
Proof.
  reflexivity.
Qed.

Lemma fits_fitted (d : Z) (est : estimator A) (tr : list (event A)) :
  fits (Fitted d est :: tr) = (d, est) :: fits tr.
Proof.
  reflexivity.
Qed.

(** Fitting a list of pipelines: the warnings shown and the way it ends are
    those of [propagate]; the pipelines fitted are a prefix of the list, the
    whole list when none raises. *)
Lemma fit_all_spec (jobs : list (Z * estimator A)) (X : matrix A) (y : vector A) :
  shown (fst (fit_all sk jobs X y)) = fst (propagate (outcomes sk jobs X y))
  /\ ends_as (snd (fit_all sk jobs X y)) (snd (propagate (outcomes sk jobs X y)))
  /\ (exists rest, jobs = fits (fst (fit_all sk jobs X y)) ++ rest)
  /\ (snd (propagate (outcomes sk jobs X y)) = None ->
      fits (fst (fit_all sk jobs X y)) = jobs).
Proof.
  induction jobs as [|[d est] jobs IH].
  - cbn. repeat split; eauto.
  - destruct IH as [IH1 [IH2 [[rest IH3] IH4]]].
    rewrite fit_all_cons. cbn [outcomes map propagate]. fold (outcomes sk jobs X y).
    unfold pipe_fit.
    destruct (result (sk est (poly_features d X) y)) as [e|c] eqn:Hres.
    + rewrite bind_raise. cbn [fst snd ends_as].
      rewrite shown_fitted, fits_fitted, shown_warned, fits_warned.
      repeat split; try reflexivity; try discriminate. now exists jobs.
    + rewrite bind_step.
      destruct (fit_all sk jobs X y) as [tr r] eqn:Hall.
      destruct (propagate (outcomes sk jobs X y)) as [ws o] eqn:Hprop.
      cbn [fst snd] in *.
      assert (Hb : bind (tr, r) (fun cs => ret (c :: cs))
                   = (tr, match r with inl e => inl e | inr cs => inr (c :: cs) end)).
      { destruct r; cbn; [reflexivity | now rewrite app_nil_r]. }
      rewrite Hb. cbn [fst snd app].
      rewrite shown_fitted, fits_fitted, shown_app, fits_app.
      rewrite shown_warned, fits_warned. cbn [app].
      repeat split.
      * now rewrite IH1.
      * destruct o as [e|]; cbn [ends_as] in *.
        -- now rewrite IH2.
        -- destruct IH2 as [v ->]. eauto.
      * exists rest. now rewrite IH3 at 1.
      * intros Ho. now rewrite (IH4 Ho).
Qed.

(** A final pure step changes neither the trace nor the way a cell ends. *)
Lemma bind_ret_map {X Y} (m : M A X) (f : X -> Y) :
  bind m (fun x => ret (f x))
  = (fst m, match snd m with inl e => inl e | inr x => inr (f x) end).
Proof.
  destruct m as [tr [e|x]]; cbn; [reflexivity | now rewrite app_nil_r].
Qed.

Lemma ends_as_map {X Y} (r : exn + X) (f : X -> Y) (o : option string) :
  ends_as r o -> ends_as (match r with inl e => inl e | inr x => inr (f x) end) o.
Proof.
  destruct o as [e|]; cbn.
  - now intros ->.
  - intros [v ->]. eauto.
Qed.

Lemma ends_as_no_shape_error {X} (r : exn + X) (o : option string) :
  ends_as r o -> shape_error r = false.
Proof.
  destruct o as [e|]; cbn.
  - now intros ->.
  - now intros [v ->].
Qed.

End Loops.

(** ** Whole runs *)

Section Runs.

Context {A : Type} `{Scalar A}.

Variable sk : sklearn A.

Lemma run_degree_loop_normal (draw : nat -> A) :
  coef_per_column sk ->
  run_degree_loop sk draw
  = bind (fit_all sk (degree_jobs degrees) (reshape_column x_data) (y_data draw))
         (fun cs => ret (map (padded (Z.to_nat degrees)) cs)).
Proof.
  intros Hsk. unfold run_degree_loop.
  rewrite synthesize_ok, bind_ret_l.
  apply degree_loop_normal; [exact Hsk | apply x_data_nonempty].
Qed.

Lemma run_alpha_sweep_normal (draw : nat -> A) :
  run_alpha_sweep sk draw
  = bind (lift (np_arange (s_of_Z 0) (s_of_dec 1 (-3)) (s_of_dec 1 (-6))))
         (fun alphas =>
            bind (fit_all sk (sweep_jobs alphas) (reshape_column x_data) (y_data draw))
                 (fun cs => ret (alphas, map squared_norm cs))).
Proof.
  unfold run_alpha_sweep.
  rewrite synthesize_ok, bind_ret_l.
  apply alpha_sweep_normal.
Qed.

Lemma run_comparison_normal (draw : nat -> A) (junk1 junk2 : nat -> nat -> A) :
  coef_per_column sk ->
  run_comparison sk draw junk1 junk2
  = bind (fit_all sk comparison_jobs (reshape_column x_data) (y_data draw))
         (fun cs => ret (evens cs, odds cs)).
Proof.
  intros Hsk. unfold run_comparison.
  rewrite synthesize_ok, bind_ret_l.
  apply comparison_normal; [exact Hsk | apply x_data_nonempty].
Qed.

(** A list of fits followed by a pure step: what is shown, how it ends,
    what was fitted. *)
Lemma fits_then_pure {Y} (jobs : list (Z * estimator A)) (X : matrix A)
      (y : vector A) (f : list (vector A) -> Y) :
  let r := bind (fit_all sk jobs X y) (fun cs => ret (f cs)) in
  let p := propagate (outcomes sk jobs X y) in
  shown (fst r) = fst p
  /\ ends_as (snd r) (snd p)
  /\ (snd p = None -> fits (fst r) = jobs).
Proof.
  cbv zeta. rewrite bind_ret_map. cbn [fst snd].
  destruct (fit_all_spec sk jobs X y) as [H1 [H2 [_ H4]]].
  repeat split; [exact H1 | now apply ends_as_map | exact H4].
Qed.

Lemma propagate_all_succeed (jobs : list (Z * estimator A)) (X : matrix A)
      (y : vector A) :
  all_succeed sk -> snd (propagate (outcomes sk jobs X y)) = None.
Proof.
  intros Hok. induction jobs as [|[d est] jobs IH]; [reflexivity|].
  cbn [outcomes map propagate]. fold (outcomes sk jobs X y).
  destruct (Hok est (poly_features d X) y) as [c ->].
  destruct (propagate (outcomes sk jobs X y)). exact IH.
Qed.

End Runs.

Lemma quiet_all_succeed {A} `{Scalar A}
      (coef : estimator A -> matrix A -> vector A -> vector A) :
  all_succeed (quiet coef).
Proof.
  intros est X y. now exists (coef est X y).
Qed.

Lemma quiet_outcomes {A} `{Scalar A}
      (coef : estimator A -> matrix A -> vector A -> vector A)
      (jobs : list (Z * estimator A)) (X : matrix A) (y : vector A) :
  propagate (outcomes (quiet coef) jobs X y) = ([], None).
Proof.
  induction jobs as [|[d est] jobs IH]; [reflexivity|].
  cbn [outcomes map propagate quiet result warnings].
  fold (outcomes (quiet coef) jobs X y). now rewrite IH.
Qed.

(** With a library that never raises, fitting a list of pipelines fits
    them all, shows nothing and returns the coefficients in order. *)
Lemma fit_all_quiet {A} `{Scalar A}
      (coef : estimator A -> matrix A -> vector A -> vector A)
      (jobs : list (Z * estimator A)) (X : matrix A) (y : vector A) :
  fit_all (quiet coef) jobs X y
  = (map (fun '(d, est) => Fitted d est) jobs,
     inr (map (fun '(d, est) => coef est (poly_features d X) y) jobs)).
Proof.
  induction jobs as [|[d est] jobs IH]; [reflexivity|].
  rewrite fit_all_cons, IH. unfold pipe_fit, quiet, bind, ret.
  cbn [result warnings map app]. now rewrite app_nil_r.
Qed.

Lemma fits_all_fitted {A} `{Scalar A} (jobs : list (Z * estimator A)) :
  fits (map (fun '(d, est) => Fitted d est) jobs) = jobs.
Proof.
  induction jobs as [|[d est] jobs IH]; [reflexivity|].
  cbn [map]. now rewrite fits_fitted, IH.
Qed.

(** ** Exact arithmetic *)

Lemma fold_left_Rplus (l : list R) (a : R) :
  fold_left Rplus l a = (a + fold_right Rplus 0 l)%R.
Proof.
  revert a; induction l as [|b l IH]; intros a; simpl.
  - lra.
  - rewrite IH. lra.
Qed.

Lemma sum_of_squares_nonneg (coefs : list R) : (0 <= sum_of_squares coefs)%R.
Proof.
  induction coefs as [|c coefs IH]; simpl; [lra|].
  pose proof (Rle_0_sqr c) as Hc. unfold Rsqr in Hc. lra.
Qed.

Lemma np_sum_squares (coefs : list R) :
  np_sum (map (fun c => np_power c 2) coefs) = sum_of_squares coefs.
Proof.
  unfold np_sum. rewrite fold_left_Rplus.
  induction coefs as [|c coefs IH]; simpl in *; [lra|].
  lra.
Qed.

(** ** Binary64 facts *)

Lemma arange_length_binary64 :
  arange_length (A := F64.t) (s_of_Z 0) (s_of_dec 1 (-3)) (s_of_dec 1 (-6))
  = Some 1001%Z.
Proof.
  vm_compute. reflexivity.
Qed.

Lemma quotient_binary64 :
  s_div (s_sub (s_of_dec 1 (-3)) (s_of_Z 0)) (s_of_dec 1 (-6))
  = S754_finite false 8796093022208001 (-43)
  /\ (8796093022208001 = 1000 * 2 ^ 43 + 1)%Z.
Proof.
  split; vm_compute; reflexivity.
Qed.

Lemma np_arange_binary64 :
  np_arange (A := F64.t) (s_of_Z 0) (s_of_dec 1 (-3)) (s_of_dec 1 (-6))
  = inr alpha_grid.
Proof.
  vm_compute. reflexivity.
Qed.

(* ===================================================================== *)
(** * Part VII.  The claims                                               *)
(* ===================================================================== *)

Local Open Scope string_scope.
Local Open Scope list_scope.

Ltac in_list := repeat (first [left; reflexivity | right]).

(** ** What the cells call *)

Lemma filter_In_pair {X} (p : nat * X -> bool) (l : list (nat * X)) (c : nat) (f : X) :
  In (c, f) l -> p (c, f) = true -> In (c, f) (filter p l).
Proof.
  intros Hin Hp. apply filter_In. now split.
Qed.

(** The modules and names the notebook imports, with the cell of each
    import. *)
Lemma notebook_imports :
  Analysis.imports
  = [ (1, "pandas", ""); (1, "numpy", ""); (1, "numpy", "meshgrid");
      (1, "matplotlib.pyplot", ""); (1, "seaborn", "");
      (4, "sklearn.preprocessing", "PolynomialFeatures");
      (4, "sklearn.pipeline", "Pipeline");
      (4, "sklearn.linear_model", "LinearRegression");
      (10, "sklearn.linear_model", "Ridge");
      (25, "sklearn.preprocessing", "StandardScaler");
      (32, "sklearn.linear_model", "Lasso");
      (37, "generate", "") ]%string.
Proof.
  vm_compute. reflexivity.
Qed.

(** No import of a threading, multiprocessing or asynchronous module, no
    coroutine, [await] or [yield], no [n_jobs] argument. *)
Lemma no_concurrency_constructs : Analysis.sequential = true.
Proof.
  vm_compute. reflexivity.
Qed.

(** C1, as stated, fails: it is not the case that every numerical call of
    the notebook is a call into scikit-learn.  In cell 11 the squared norm of
    the coefficient vector is computed by the notebook itself with
    [numpy.power], [numpy.sqrt] and [numpy.sum]. *)
Lemma norm_computed_outside_sklearn :
  ~ (forall c f, In (c, f) Analysis.callees ->
                 Analysis.numerical f = true -> Analysis.from_sklearn f = true).
Proof.
  intros Hall.
  assert (Hcall : In (11%nat, "numpy.sqrt"%string) Analysis.callees)
    by (vm_compute; in_list).
  specialize (Hall _ _ Hcall eq_refl). discriminate Hall.
Qed.

(** C1, amended: every numerical call of the notebook is a call into
    scikit-learn, except the three numpy calls of cell 11 that compute the
    squared norm; scikit-learn is called for the pipeline, the polynomial
    features, the three estimators and their [fit] and [predict];
    [StandardScaler] is imported (cell 25) and never called; and operators
    are applied only when making the data, in arguments of plots and tables,
    and in loop and index arithmetic. *)
Theorem numerical_work_by_library :
  (forall c f, In (c, f) Analysis.callees -> Analysis.numerical f = true ->
     Analysis.from_sklearn f = true
     \/ (c = 11%nat /\ In f ["numpy.power"; "numpy.sqrt"; "numpy.sum"]%string))
  /\ Analysis.own_numerics
     = [ (11%nat, "numpy.power"); (11%nat, "numpy.sqrt");
         (11%nat, "numpy.sum"); (11%nat, "numpy.power") ]%string
  /\ Analysis.sklearn_calls
     = [ "sklearn.pipeline.Pipeline"; "sklearn.preprocessing.PolynomialFeatures";
         "sklearn.linear_model.LinearRegression";
         "sklearn.pipeline.Pipeline().fit";
         "sklearn.pipeline.Pipeline().predict";
         "sklearn.linear_model.Ridge"; "sklearn.linear_model.Lasso" ]%string
  /\ In (25%nat, "sklearn.preprocessing", "StandardScaler")%string Analysis.imports
  /\ Analysis.mem "sklearn.preprocessing.StandardScaler" (map snd Analysis.callees)
     = false
  /\ Analysis.operator_sites
     = [ (3%nat, "y ="); (3%nat, "matplotlib.pyplot.plot"); (6%nat, "for");
         (6%nat, "coef_holder[] ="); (7%nat, "pandas.DataFrame");
         (8%nat, "matplotlib.pyplot.plot"); (8%nat, "matplotlib.pyplot.plot");
         (14%nat, "distance ="); (14%nat, "tiredness ="); (30%nat, "y =");
         (34%nat, "pandas.DataFrame"); (35%nat, "pandas.DataFrame") ]%string.
Proof.
  assert (Hown : Analysis.own_numerics
                 = [ (11%nat, "numpy.power"); (11%nat, "numpy.sqrt");
                     (11%nat, "numpy.sum"); (11%nat, "numpy.power") ]%string)
    by (vm_compute; reflexivity).
  split; [|split; [exact Hown|]].
  - intros c f Hin Hnum.
    destruct (Analysis.from_sklearn f) eqn:Hsk; [now left | right].
    assert (Hf : In (c, f) Analysis.own_numerics).
    { unfold Analysis.own_numerics. apply filter_In_pair; [exact Hin|].
      cbn beta iota. now rewrite Hnum, Hsk. }
    rewrite Hown in Hf. cbn [In] in Hf.
    repeat (destruct Hf as [Hf|Hf]; [inversion Hf; subst; split; [reflexivity | in_list]|]).
    contradiction.
  - repeat split; try (vm_compute; reflexivity). vm_compute; in_list.
Qed.

Lemma numerical_work_by_library_witness :
  Analysis.from_sklearn "sklearn.linear_model.Lasso" = true
  \/ (33%nat = 11%nat
      /\ In "sklearn.linear_model.Lasso"%string
            ["numpy.power"; "numpy.sqrt"; "numpy.sum"]%string).
Proof.
  refine (proj1 numerical_work_by_library 33%nat "sklearn.linear_model.Lasso"%string _ _).
  - vm_compute; in_list.
  - vm_compute; reflexivity.
Defined.

(** C4: the helper module [generate] is imported once, as [g] (cell 37);
    the only statements that mention it are [X,y = g.get_data()] (cell 38)
    and [g.give_how_generated()] (cell 43), both calls without arguments,
    the first unpacked into the pair [X, y], the second used as a statement
    for its printed output; [get_data] and [give_how_generated] are the only
    attributes read off the module. *)
Theorem generate_module_usage :
  filter (fun '(_, m, _) => String.eqb m "generate") Analysis.imports
  = [(37%nat, "generate", "")]%string
  /\ Analysis.lookup (Analysis.defs_after 37) "g" = Some (Py.EName "generate")
  /\ Analysis.module_uses "generate"
     = [ (38%nat,
          Py.SAssign (Py.ETuple [Py.EName "X"; Py.EName "y"])
            (Py.ECall (Py.EAttr (Py.EName "g") "get_data") [] []));
         (43%nat,
          Py.SExpr (Py.ECall (Py.EAttr (Py.EName "g") "give_how_generated") [] [])) ]
  /\ Analysis.module_attributes "generate"
     = [ (38%nat, "get_data"); (43%nat, "give_how_generated") ]%string.
Proof.
  repeat split; vm_compute; reflexivity.
Qed.

(** C6: no call of the notebook writes outside the session (no [open],
    [write], [savefig], [save], [dump], no [to_...] export) and no statement
    is a [with] block or a shell or cell magic; the functions called are
    those of [called_functions], none of which writes a file; results are
    shown through [print], [pandas.DataFrame] and the matplotlib calls. *)
Theorem nothing_persisted :
  Analysis.session_only = true
  /\ Analysis.dedup (map snd Analysis.callees) = called_functions
  /\ existsb Analysis.writes called_functions = false
  /\ filter (fun f => Analysis.mem (Analysis.root f) ["matplotlib"; "seaborn"; "pandas"; "print"])
            called_functions
     = [ "seaborn.set_style"; "matplotlib.pyplot.figure";
         "matplotlib.pyplot.scatter"; "matplotlib.pyplot.plot";
         "matplotlib.pyplot.xlabel"; "matplotlib.pyplot.ylabel";
         "matplotlib.pyplot.legend"; "matplotlib.pyplot.show";
         "pandas.DataFrame"; "matplotlib.pyplot.xlim"; "print" ]%string.
Proof.
  repeat split; vm_compute; reflexivity.
Qed.

(** C8: every [.fit(...)] call of the notebook (cells 6, 11 and twice 33)
    receives [x.reshape(-1,1)] and [y] with [x = np.linspace(-3,3,100)] and
    [y = x*(x-1) + 1.2*np.random.randn(100)]; after cell 14, [age] is
    [np.random.randint(20,40,100)], [distance] is
    [3*np.random.randn(100)+10] and [tiredness] is
    [age + 3*distance + 2*np.random.randn(100)]; the dataset of
    [generate.get_data()] is bound to [X, y] in cell 38, after the last fit;
    the only calls to numpy's generators or to [get_data] are the nine
    listed, and no call of the notebook reads a file or another external
    source. *)
Theorem fitted_data_is_synthesized :
  Analysis.fitted_data
  = [ (6%nat, synthetic_xy); (11%nat, synthetic_xy);
      (33%nat, synthetic_xy); (33%nat, synthetic_xy) ]
  /\ Analysis.lookup (Analysis.defs_after 14) "age" = Some randint_call
  /\ Analysis.lookup (Analysis.defs_after 14) "distance" = Some distance_value
  /\ Analysis.lookup (Analysis.defs_after 14) "tiredness" = Some tiredness_value
  /\ Analysis.lookup (Analysis.defs_after 38) "X"
     = Some (Py.EIndex get_data_call [Py.EInt 0])
  /\ Analysis.lookup (Analysis.defs_after 38) "y"
     = Some (Py.EIndex get_data_call [Py.EInt 1])
  /\ filter (fun '(_, f) =>
               (Analysis.mem f Analysis.data_generation
                || String.eqb f "generate.get_data")%bool)
            Analysis.callees
     = [ (3%nat, "numpy.linspace"); (3%nat, "numpy.random.randn");
         (11%nat, "numpy.arange"); (14%nat, "numpy.random.randint");
         (14%nat, "numpy.random.randn"); (14%nat, "numpy.random.randn");
         (30%nat, "numpy.linspace"); (30%nat, "numpy.random.randn");
         (38%nat, "generate.get_data") ]%string
  /\ forallb (fun '(_, f) => negb (Analysis.reads f)) Analysis.callees = true.
Proof.
  repeat split; vm_compute; reflexivity.
Qed.

(** ** The arrays *)

Lemma py_range_from_nth (lo : Z) (len k : nat) :
  (k < len)%nat -> nth_error (py_range_from lo len) k = Some (lo + Z.of_nat k)%Z.
Proof.
  revert lo k; induction len as [|len IH]; intros lo [|k] Hk; try lia.
  - cbn. f_equal. lia.
  - cbn [py_range_from nth_error]. rewrite IH by lia. f_equal. lia.
Qed.

Lemma first_row_per_column (A : Type) (S : Scalar A) :
  coef_per_column (quiet (fun (_ : estimator A) (X : matrix A) (_ : vector A) => hd [] X)).
Proof.
  intros est X y c n Hc HX Hrows. cbn in Hc. injection Hc as <-.
  destruct X as [|row X]; [congruence|]. apply Hrows. now left.
Qed.

Lemma demo_sklearn_per_column (limit : F64.t) : coef_per_column (demo_sklearn limit).
Proof.
  intros est X y c n Hc HX Hrows.
  assert (Hz : length (repeat (F64.of_Z 0) (length (hd [] X))) = n).
  { rewrite repeat_length. destruct X as [|row X]; [congruence|].
    apply Hrows. now left. }
  unfold demo_sklearn in Hc. destruct est; cbn in Hc.
  - now injection Hc as <-.
  - now injection Hc as <-.
  - destruct (SFleb limit alpha); [discriminate|]. now injection Hc as <-.
Qed.

(** C2: the only assignments through a subscript are
    [coef_holder[i-1,:i]], [ridge_coefs[i,:]] and [lasso_coefs[i,:]]; for
    every degree [i] of [range(1, n+1)] the design matrix of the
    pipeline has [i] columns and a fitted [coef_] has [i] entries, and in the
    ridge/lasso comparison both have 10; so neither cell 6 (after cells 3 and
    5) nor cell 33 (after cell 30) can end in a numpy index or shape error,
    and when every fit succeeds both cells run to their end. *)
Theorem coefficient_shapes_consistent {A : Type} `{Scalar A}
        (sk : sklearn A) (draw : nat -> A) (junk1 junk2 : nat -> nat -> A) :
  coef_per_column sk ->
  Analysis.slice_assignments
  = [ (6%nat, Py.EIndex (Py.EName "coef_holder")
                [Py.EBin Py.Sub (Py.EName "i") (Py.EInt 1);
                 Py.ESlice None (Some (Py.EName "i"))]);
      (33%nat, Py.EIndex (Py.EName "ridge_coefs")
                 [Py.EName "i"; Py.ESlice None None]);
      (33%nat, Py.EIndex (Py.EName "lasso_coefs")
                 [Py.EName "i"; Py.ESlice None None]) ]
  /\ (forall i row c,
      In i (py_range 1 (degrees + 1)) ->
      In row (poly_features i (reshape_column x_data)) ->
      result (sk LinearRegression (poly_features i (reshape_column x_data))
                 (y_data draw)) = inr c ->
      length row = Z.to_nat i /\ length c = Z.to_nat i)
  /\ (forall est row c,
         In row (poly_features comparison_degree (reshape_column x_data)) ->
         result (sk est (poly_features comparison_degree (reshape_column x_data))
                    (y_data draw)) = inr c ->
         length row = 10%nat /\ length c = 10%nat)
  /\ shape_error (snd (run_degree_loop sk draw)) = false
  /\ shape_error (snd (run_comparison sk draw junk1 junk2)) = false
  /\ (all_succeed sk ->
      (exists table, snd (run_degree_loop sk draw) = inr table)
      /\ (exists tables, snd (run_comparison sk draw junk1 junk2) = inr tables)).
Proof.
  intros Hsk.
  assert (Hcount : forall d est c,
             result (sk est (poly_features d (reshape_column x_data)) (y_data draw)) = inr c ->
             length c = Z.to_nat d).
  { intros d est c Hc. apply (Hsk _ _ _ _ (Z.to_nat d) Hc).
    - apply poly_features_nonempty, x_data_nonempty.
    - apply poly_features_columns. }
  pose proof (fits_then_pure sk (degree_jobs degrees) (reshape_column x_data)
                (y_data draw) (map (padded (Z.to_nat degrees)))) as Hdeg.
  pose proof (fits_then_pure sk comparison_jobs (reshape_column x_data)
                (y_data draw) (fun cs => (evens cs, odds cs))) as Hcmp.
  cbv zeta in Hdeg, Hcmp.
  rewrite <- (run_degree_loop_normal draw Hsk) in Hdeg.
  rewrite <- (run_comparison_normal draw junk1 junk2 Hsk) in Hcmp.
  destruct Hdeg as [_ [Hdeg _]]. destruct Hcmp as [_ [Hcmp _]].
  split; [vm_compute; reflexivity|].
  split; [|split; [|split; [|split]]].
  - intros i row c _ Hrow Hc. split.
    + now apply (poly_features_columns i x_data).
    + now apply (Hcount i LinearRegression).
  - intros est row c Hrow Hc. split.
    + now apply (poly_features_columns comparison_degree x_data).
    + now apply (Hcount comparison_degree est).
  - eapply ends_as_no_shape_error; exact Hdeg.
  - eapply ends_as_no_shape_error; exact Hcmp.
  - intros Hall. split.
    + rewrite (propagate_all_succeed _ _ _ Hall) in Hdeg. exact Hdeg.
    + rewrite (propagate_all_succeed _ _ _ Hall) in Hcmp. exact Hcmp.
Qed.

Lemma coefficient_shapes_consistent_witness :
  coef_per_column (demo_sklearn (F64.of_Z 1))
  /\ shape_error
       (snd (run_comparison (demo_sklearn (F64.of_Z 1)) (fun _ => F64.of_Z 0)
               (fun _ _ => F64.of_Z 7) (fun _ _ => F64.of_Z 8))) = false.
Proof.
  split.
  - apply demo_sklearn_per_column.
  - exact (proj1 (proj2 (proj2 (proj2 (proj2
             (coefficient_shapes_consistent
                (fun _ => F64.of_Z 0) (fun _ _ => F64.of_Z 7) (fun _ _ => F64.of_Z 8)
                (demo_sklearn_per_column (F64.of_Z 1)))))))).
Defined.

(** C10: [coef_holder] starts as 26 rows of 26 zeros; the assignment
    [coef_holder[i-1,:i] = ...] of the iteration for degree [i] leaves every
    row but row [i - 1] as it was, and in that row every column from [i] on;
    when every fit succeeds the degree loop ends with a table of 26 rows in
    which row [k] (degree [k + 1]) is the fitted [coef_], each entry rounded
    to 3 decimals, followed by zeros: the entries of columns [k + 1] and
    beyond are still 0. *)
Theorem coef_holder_keeps_zeros {A : Type} `{Scalar A}
        (coef : estimator A -> matrix A -> vector A -> vector A)
        (draw : nat -> A) :
  coef_per_column (quiet coef) ->
  zero_table (A := A) = repeat (repeat (s_of_Z 0) 26) 26
  /\ (forall (holder holder' : matrix A) (i : Z) (v : vector A),
         In i (py_range 1 (degrees + 1)) -> length holder = 26%nat ->
         setitem_row holder (i - 1) (Some i) v = inr holder' ->
         exists row row',
           nth_error holder (Z.to_nat (i - 1)) = Some row
           /\ nth_error holder' (Z.to_nat (i - 1)) = Some row'
           /\ (forall r, r <> Z.to_nat (i - 1) ->
                          nth_error holder' r = nth_error holder r)
           /\ (forall j, (Z.to_nat i <= j)%nat ->
                          nth_error row' j = nth_error row j))
  /\ exists table,
       snd (run_degree_loop (quiet coef) draw) = inr table
       /\ length table = 26%nat
       /\ forall k, (k < 26)%nat ->
            exists row,
              nth_error table k = Some row
              /\ length (coef LinearRegression
                           (poly_features (Z.of_nat k + 1) (reshape_column x_data))
                           (y_data draw)) = S k
              /\ row = map (np_round 3)
                         (coef LinearRegression
                            (poly_features (Z.of_nat k + 1) (reshape_column x_data))
                            (y_data draw))
                       ++ repeat (s_of_Z 0) (26 - S k)
              /\ (forall j, (S k <= j < 26)%nat -> nth_error row j = Some (s_of_Z 0))
              /\ (forall j a,
                     nth_error (coef LinearRegression
                                  (poly_features (Z.of_nat k + 1) (reshape_column x_data))
                                  (y_data draw)) j = Some a ->
                     nth_error row j = Some (np_round 3 a)).
Proof.
  intros Hsk. split; [reflexivity|]. split.
  { intros holder holder' i v Hi Hrows Hset.
    apply py_range_In in Hi. unfold degrees in Hi.
    destruct (setitem_row_frame _ _ _ _ Hset)
      as [k [row [row' [Hk [Hrow [Hrow' [_ [_ [Hothers Hrest]]]]]]]]].
    rewrite Hrows in Hk. unfold norm_index in Hk.
    replace ((0 <=? i - 1) && (i - 1 <? Z.of_nat 26))%Z with true in Hk
      by (symmetry; apply andb_true_iff; split;
          [apply Z.leb_le | apply Z.ltb_lt]; lia).
    injection Hk as <-.
    exists row, row'. repeat split; try assumption.
    intros j Hj. apply Hrest.
    unfold slice_stop. destruct (Z.ltb_spec i 0); lia. }
  rewrite (run_degree_loop_normal draw Hsk), fit_all_quiet, bind_ret_map.
  cbn [fst snd]. eexists. split; [reflexivity|].
  unfold degree_jobs, py_range. rewrite !map_map.
  replace (Z.to_nat (degrees + 1 - 1)) with 26%nat by reflexivity.
  split; [now rewrite length_map, py_range_from_length|].
  intros k Hk.
  set (fitted := coef LinearRegression
                   (poly_features (Z.of_nat k + 1) (reshape_column x_data))
                   (y_data draw)).
  assert (Hlen : length fitted = S k).
  { rewrite (Hsk LinearRegression
                 (poly_features (Z.of_nat k + 1) (reshape_column x_data))
                 (y_data draw) fitted (Z.to_nat (Z.of_nat k + 1)) eq_refl).
    - lia.
    - apply poly_features_nonempty, x_data_nonempty.
    - apply poly_features_columns. }
  exists (map (np_round 3) fitted ++ repeat (s_of_Z 0) (26 - S k)).
  split; [|split; [exact Hlen | split; [reflexivity | split]]].
  - rewrite nth_error_map, py_range_from_nth by exact Hk. cbn [option_map].
    unfold padded. fold fitted.
    replace (1 + Z.of_nat k)%Z with (Z.of_nat k + 1)%Z by lia. fold fitted.
    rewrite Hlen. reflexivity.
  - intros j Hj.
    rewrite nth_error_app2 by (rewrite length_map; lia).
    rewrite length_map, Hlen. apply nth_error_repeat. lia.
  - intros j a Ha.
    rewrite nth_error_app1
      by (rewrite length_map; apply nth_error_Some; congruence).
    now rewrite nth_error_map, Ha.
Qed.

Lemma coef_holder_keeps_zeros_witness :
  coef_per_column (quiet (fun (_ : estimator F64.t) (X : matrix F64.t) (_ : vector F64.t) => hd [] X))
  /\ zero_table (A := F64.t) = repeat (repeat (s_of_Z 0) 26) 26.
Proof.
  split.
  - exact (first_row_per_column F64.scalar).
  - exact (proj1 (coef_holder_keeps_zeros (fun _ => F64.of_Z 0)
                    (first_row_per_column F64.scalar))).
Defined.

(** ** Hyperparameters *)

(** C3, as stated, fails: [np.arange(0,.001,.000001)] does not have 1000
    values.  In binary64 [(0.001 - 0)/0.000001] is [1000 + 2^-43], whose
    ceiling is 1001. *)
Lemma alpha_grid_not_1000 :
  ~ (exists alphas : vector F64.t,
        np_arange (s_of_Z 0) (s_of_dec 1 (-3)) (s_of_dec 1 (-6)) = inr alphas
        /\ length alphas = 1000%nat).
Proof.
  intros [alphas [Hgrid Hlen]].
  rewrite np_arange_binary64 in Hgrid. injection Hgrid as <-.
  unfold alpha_grid, py_range in Hlen.
  rewrite length_map, py_range_from_length in Hlen.
  vm_compute in Hlen. discriminate Hlen.
Qed.

(** C3, amended: a penalised estimator is built in three places only, the
    [Ridge] of cell 11 with [alpha] an element of
    [np.arange(0,.001,.000001)] and the [Ridge] and [Lasso] of cell 33 with
    [alpha = alpha[i]] for [i] in [range(len(alpha))] over the 9-element
    list.  The arange has 1001 values, [k * 1e-6] for [k] from 0 to 1000, the
    first 0 and the last equal to the stop value 0.001.  When every fit
    succeeds, cell 11 fits exactly one degree-30 ridge pipeline per value, in
    order, and cell 33 fits one ridge and one lasso pipeline of degree 10 per
    listed value, in order. *)
Theorem alpha_sweeps
        (coef : estimator F64.t -> matrix F64.t -> vector F64.t -> vector F64.t)
        (draw : nat -> F64.t) (junk1 junk2 : nat -> nat -> F64.t) :
  coef_per_column (quiet coef) ->
  Analysis.penalised
  = [ (11%nat, "sklearn.linear_model.Ridge", Some swept_alpha);
      (33%nat, "sklearn.linear_model.Ridge", Some listed_alpha);
      (33%nat, "sklearn.linear_model.Lasso", Some listed_alpha) ]
  /\ np_arange (s_of_Z 0) (s_of_dec 1 (-3)) (s_of_dec 1 (-6)) = inr alpha_grid
  /\ length alpha_grid = 1001%nat
  /\ nth_error alpha_grid 0 = Some (S754_zero false)
  /\ nth_error alpha_grid 1000 = Some (s_of_dec 1 (-3))
  /\ length (alpha_list (A := F64.t)) = 9%nat
  /\ fits (fst (run_alpha_sweep (quiet coef) draw))
     = map (fun a => (30%Z, Ridge a true)) alpha_grid
  /\ fits (fst (run_comparison (quiet coef) draw junk1 junk2))
     = flat_map (fun a => [(10%Z, Ridge a true); (10%Z, Lasso a true 1000000)])
                alpha_list.
Proof.
  intros Hsk.
  split; [vm_compute; reflexivity|].
  split; [exact np_arange_binary64|].
  split; [vm_compute; reflexivity|].
  split; [vm_compute; reflexivity|].
  split; [vm_compute; reflexivity|].
  split; [reflexivity|].
  split.
  - rewrite run_alpha_sweep_normal, np_arange_binary64, bind_lift_ok.
    rewrite fit_all_quiet, bind_ret_map. cbn [fst].
    apply fits_all_fitted.
  - rewrite (run_comparison_normal draw junk1 junk2 Hsk).
    rewrite fit_all_quiet, bind_ret_map. cbn [fst].
    apply fits_all_fitted.
Qed.

Lemma alpha_sweeps_witness :
  coef_per_column (quiet first_row)
  /\ length alpha_grid = 1001%nat.
Proof.
  split.
  - exact (first_row_per_column F64.scalar).
  - exact (proj1 (proj2 (proj2
             (alpha_sweeps (fun _ => F64.of_Z 0)
                (fun _ _ => F64.of_Z 7) (fun _ _ => F64.of_Z 8)
                (first_row_per_column F64.scalar))))).
Defined.

(** ** The squared norm *)

(** C9: over the real numbers the value appended to [norms],
    [np.power(np.sqrt(np.sum(np.power(coefs,2))),2)], is the sum of the
    squares of the entries of [coefs], for every coefficient vector; so when
    every fit succeeds the sweep ends with [norms] holding, for each alpha in
    order, the sum of squares of the coefficients fitted for it. *)
Theorem squared_norm_is_sum_of_squares :
  (forall coefs : vector R, squared_norm coefs = sum_of_squares coefs)
  /\ (forall (coef : estimator R -> matrix R -> vector R -> vector R)
             (draw : nat -> R),
         exists alphas,
           snd (run_alpha_sweep (quiet coef) draw)
           = inr (alphas,
                  map (fun a =>
                         sum_of_squares
                           (coef (Ridge a true)
                                 (poly_features 30 (reshape_column x_data))
                                 (y_data draw)))
                      alphas)).
Proof.
  assert (Hnorm : forall coefs : vector R, squared_norm coefs = sum_of_squares coefs).
  { intros coefs. unfold squared_norm. rewrite np_sum_squares.
    cbn [np_power s_mul s_of_Z s_sqrt Exact.scalar].
    rewrite Rmult_1_r. apply sqrt_sqrt, sum_of_squares_nonneg. }
  split; [exact Hnorm|].
  intros coef draw.
  rewrite run_alpha_sweep_normal. unfold np_arange, arange_length.
  cbn [s_ceil Exact.scalar]. rewrite bind_lift_ok.
  eexists. rewrite fit_all_quiet, bind_ret_map. cbn [snd].
  do 2 f_equal. unfold sweep_jobs. rewrite !map_map.
  apply map_ext. intros a. apply Hnorm.
Qed.

(** ** Exceptions and warnings *)

(** When the first call to raise is reached after calls that all returned,
    [propagate] yields the warnings of all of them and that exception. *)
Lemma propagate_first_raise {A : Type} (before after : list (outcome A))
      (o : outcome A) (e : string) :
  Forall (fun o' => exists c, result o' = inr c) before ->
  result o = inl e ->
  propagate (before ++ o :: after)
  = (flat_map (@warnings A) before ++ warnings o, Some e).
Proof.
  intros Hbefore Ho. induction Hbefore as [|o' before [c Hc] _ IH].
  - cbn. now rewrite Ho.
  - cbn [app propagate flat_map]. rewrite Hc, IH. now rewrite app_assoc.
Qed.

(** C5: no statement of the notebook is a [try] or a [with] block and no
    call changes how warnings are reported; so in each of the three fitting
    cells (6, 11, 33) the warnings shown are exactly those the library
    issued, in order, up to and including the first call that raises, and
    the cell ends with that call's exception unchanged (or, if no call
    raises, with its value). *)
Theorem library_failures_propagate {A : Type} `{Scalar A}
        (sk : sklearn A) (draw : nat -> A) (junk1 junk2 : nat -> nat -> A) :
  coef_per_column sk ->
  Analysis.unguarded = true
  /\ (shown (fst (run_degree_loop sk draw))
      = fst (propagate (outcomes sk (degree_jobs degrees)
                          (reshape_column x_data) (y_data draw)))
      /\ ends_as (snd (run_degree_loop sk draw))
           (snd (propagate (outcomes sk (degree_jobs degrees)
                              (reshape_column x_data) (y_data draw)))))
  /\ (shown (fst (run_comparison sk draw junk1 junk2))
      = fst (propagate (outcomes sk comparison_jobs
                          (reshape_column x_data) (y_data draw)))
      /\ ends_as (snd (run_comparison sk draw junk1 junk2))
           (snd (propagate (outcomes sk comparison_jobs
                              (reshape_column x_data) (y_data draw)))))
  /\ (forall alphas,
         np_arange (s_of_Z 0) (s_of_dec 1 (-3)) (s_of_dec 1 (-6)) = inr alphas ->
         shown (fst (run_alpha_sweep sk draw))
         = fst (propagate (outcomes sk (sweep_jobs alphas)
                             (reshape_column x_data) (y_data draw)))
         /\ ends_as (snd (run_alpha_sweep sk draw))
              (snd (propagate (outcomes sk (sweep_jobs alphas)
                                 (reshape_column x_data) (y_data draw))))).
Proof.
  intros Hsk.
  split; [vm_compute; reflexivity|].
  split; [|split].
  - rewrite (run_degree_loop_normal draw Hsk).
    destruct (fits_then_pure sk (degree_jobs degrees) (reshape_column x_data)
                (y_data draw) (map (padded (Z.to_nat degrees)))) as [H1 [H2 _]].
    now split.
  - rewrite (run_comparison_normal draw junk1 junk2 Hsk).
    destruct (fits_then_pure sk comparison_jobs (reshape_column x_data)
                (y_data draw) (fun cs => (evens cs, odds cs))) as [H1 [H2 _]].
    now split.
  - intros alphas Hgrid.
    rewrite run_alpha_sweep_normal, Hgrid, bind_lift_ok.
    destruct (fits_then_pure sk (sweep_jobs alphas) (reshape_column x_data)
                (y_data draw) (fun cs => (alphas, map squared_norm cs))) as [H1 [H2 _]].
    now split.
Qed.

Lemma library_failures_propagate_witness :
  coef_per_column (demo_sklearn (F64.of_Z 1))
  /\ Analysis.unguarded = true.
Proof.
  split.
  - apply demo_sklearn_per_column.
  - exact (proj1 (library_failures_propagate
                    (fun _ => F64.of_Z 0) (fun _ _ => F64.of_Z 7)
                    (fun _ _ => F64.of_Z 8)
                    (demo_sklearn_per_column (F64.of_Z 1)))).
Defined.

(** A lasso that warns at every fit and raises once [alpha] reaches 1: the
    comparison stops at the sixth alpha, after twelve fits, with six
    warnings shown and the library's exception as the end of the cell. *)
Example lasso_raise_reaches_user :
  run_comparison (demo_sklearn (F64.of_Z 1)) (fun _ => F64.of_Z 0)
                 (fun _ _ => F64.of_Z 7) (fun _ _ => F64.of_Z 8)
  = (flat_map (fun a => [Fitted 10 (Ridge a true);
                         Fitted 10 (Lasso a true 1000000);
                         Warned "ConvergenceWarning"])
              (firstn 6 alpha_list),
     inl (LibraryError "ValueError: lasso")).
Proof.
  vm_compute. reflexivity.
Qed.

(** A library that always returns the first row of the design matrix: the
    degree loop fills row [i - 1] with the rounded powers of [x[0] = -3]. *)
Example degree_loop_rows :
  exists table,
    snd (run_degree_loop (quiet first_row) (fun _ => F64.of_Z 0)) = inr table
    /\ nth_error table 2
       = Some ([F64.of_Z (-3); F64.of_Z 9; F64.of_Z (-27)] ++ repeat (F64.of_Z 0) 23).
Proof.
  eexists. split; vm_compute; reflexivity.
Qed.

(** Binary64 rounding to 3 decimals: [1.2345] gives [1.234], the tie
    [0.0005] goes to the even [0.0], and [-0.0015] to [-0.002]. *)
Example np_round_binary64 :
  np_round 3 (s_of_dec 12345 (-4) : F64.t) = s_of_dec 1234 (-3)
  /\ np_round 3 (s_of_dec 5 (-4) : F64.t) = S754_zero false
  /\ np_round 3 (s_of_dec (-15) (-4) : F64.t) = s_of_dec (-2) (-3).
Proof.
  repeat split; vm_compute; reflexivity.
Qed.

(** In binary64 the square of the square root is not always the number
    itself: for [coefs = [1; 1]] the value appended to [norms] is the float
    just above 2. *)
Example squared_norm_binary64 :
  squared_norm [F64.of_Z 1; F64.of_Z 1] = S754_finite false 4503599627370497 (-51)
  /\ F64.of_Z 2 = S754_finite false 4503599627370496 (-51).
Proof.
  split; vm_compute; reflexivity.
Qed.

(** The model does refuse a bad assignment: three values do not fit two
    columns, a single value is repeated, and row 3 of a 3-row table does not
    exist. *)
Example setitem_row_checks :
  setitem_row (np_zeros 3 3) 0 (Some 2%Z) [F64.of_Z 1; F64.of_Z 2; F64.of_Z 3]
  = inl ValueError
  /\ setitem_row (np_zeros 3 3) (-1) (Some 2%Z) [F64.of_Z 5]
     = inr [ [F64.of_Z 0; F64.of_Z 0; F64.of_Z 0];
             [F64.of_Z 0; F64.of_Z 0; F64.of_Z 0];
             [F64.of_Z 5; F64.of_Z 5; F64.of_Z 0] ]
  /\ setitem_row (np_zeros 3 3) 3 None [F64.of_Z 1; F64.of_Z 2; F64.of_Z 3]
     = inl IndexError.
Proof.
  repeat split; vm_compute; reflexivity.
Qed.

(** A library whose [coef_] had two entries whatever the design matrix
    would stop the degree loop at its first iteration with numpy's shape
    error, after one fit. *)
Example wrong_coef_length_raises :
  run_degree_loop (quiet (fun _ _ _ => [F64.of_Z 1; F64.of_Z 2])) (fun _ => F64.of_Z 0)
  = ([Fitted 1 LinearRegression], inl ValueError).
Proof.
  vm_compute. reflexivity.
Qed.

(* ===================================================================== *)
(** * Part VIII.  The other cells                                         *)
(* ===================================================================== *)

(** ** Labels *)

Lemma to_int_not_nil (z : Z) :
  Z.to_int z <> Decimal.Pos Decimal.Nil /\ Z.to_int z <> Decimal.Neg Decimal.Nil.
Proof.
  destruct z as [|p|p]; cbn; split; try discriminate;
    intros [= Hp]; pose proof (DecimalPos.Unsigned.to_uint_nonnil p) as Hn;
      congruence.
Qed.

Lemma py_str_inj (i j : Z) : py_str i = py_str j -> i = j.
Proof.
  unfold py_str. intros Hs.
  apply DecimalZ.to_int_inj.
  destruct (to_int_not_nil i) as [Hi1 Hi2].
  destruct (to_int_not_nil j) as [Hj1 Hj2].
  pose proof (NilZero.isi _ Hi1 Hi2) as Ei.
  pose proof (NilZero.isi _ Hj1 Hj2) as Ej.
  rewrite Hs in Ei. congruence.
Qed.

Lemma append_length (s t : string) :
  String.length (s ++ t) = (String.length s + String.length t)%nat.
Proof.
  induction s as [|c s IH]; simpl; [reflexivity | now rewrite IH].
Qed.

Lemma append_inj_r (s1 s2 t : string) : (s1 ++ t = s2 ++ t)%string -> s1 = s2.
Proof.
  revert s2; induction s1 as [|c s1 IH]; intros [|d s2] Hs; simpl in Hs.
  - reflexivity.
  - apply (f_equal String.length) in Hs. simpl in Hs.
    rewrite append_length in Hs. lia.
  - apply (f_equal String.length) in Hs. simpl in Hs.
    rewrite append_length in Hs. lia.
  - injection Hs as -> Hs. f_equal. now apply IH.
Qed.

Lemma py_range_from_NoDup (lo : Z) (len : nat) : NoDup (py_range_from lo len).
Proof.
  revert lo; induction len as [|len IH]; intros lo; simpl; constructor.
  - rewrite py_range_from_In. lia.
  - apply IH.
Qed.

Lemma NoDup_map_inj {X Y} (f : X -> Y) (l : list X) :
  (forall a b, f a = f b -> a = b) -> NoDup l -> NoDup (map f l).
Proof.
  intros Hf Hl. induction Hl as [|a l Ha Hl IH]; simpl; constructor.
  - intros Hin. apply in_map_iff in Hin. destruct Hin as [b [Hb Hin]].
    apply Hf in Hb. now subst.
  - exact IH.
Qed.

Lemma column_labels_length (n : Z) : length (column_labels n) = Z.to_nat n.
Proof.
  unfold column_labels, py_range. rewrite length_map, py_range_from_length. lia.
Qed.

Lemma row_labels_length (n : Z) : length (row_labels n) = Z.to_nat n.
Proof.
  unfold row_labels, py_range. rewrite length_map, py_range_from_length. lia.
Qed.

Lemma column_labels_nth (n : Z) (k : nat) :
  (k < Z.to_nat n)%nat ->
  nth_error (column_labels n) k = Some ("x^" ++ py_str (Z.of_nat k + 1))%string.
Proof.
  intros Hk. unfold column_labels, py_range.
  rewrite nth_error_map, py_range_from_nth by lia.
  cbn [option_map]. do 3 f_equal. lia.
Qed.

Lemma row_labels_nth (n : Z) (k : nat) :
  (k < Z.to_nat n)%nat ->
  nth_error (row_labels n) k = Some (py_str (Z.of_nat k + 1) ++ "_deg_poly")%string.
Proof.
  intros Hk. unfold row_labels, py_range.
  rewrite nth_error_map, py_range_from_nth by lia.
  cbn [option_map]. do 3 f_equal. lia.
Qed.

(** X4.  The labels of cell 7, for any [n]: [range(1, n+1)] gives [n]
    column labels and [n] row labels (none when [n] is not positive); label
    [k] (from 0) is ["x^"] followed by the decimal digits of [k + 1], or
    those digits followed by ["_deg_poly"]; and no label occurs twice. *)
Theorem labels_count_and_distinct (n : Z) :
  length (column_labels n) = Z.to_nat n
  /\ length (row_labels n) = Z.to_nat n
  /\ NoDup (column_labels n)
  /\ NoDup (row_labels n)
  /\ (forall k, (k < Z.to_nat n)%nat ->
        nth_error (column_labels n) k = Some ("x^" ++ py_str (Z.of_nat k + 1))%string
        /\ nth_error (row_labels n) k = Some (py_str (Z.of_nat k + 1) ++ "_deg_poly")%string).
Proof.
  split; [apply column_labels_length|]. split; [apply row_labels_length|].
  split; [|split].
  - apply NoDup_map_inj; [|apply py_range_from_NoDup].
    intros a b Hab. injection Hab as Hab. now apply py_str_inj.
  - apply NoDup_map_inj; [|apply py_range_from_NoDup].
    intros a b Hab. apply append_inj_r in Hab. now apply py_str_inj.
  - intros k Hk. split; [now apply column_labels_nth | now apply row_labels_nth].
Qed.

(** ** The data of cells 3 and 30 *)

Section Data.

Context {A : Type} `{Scalar A}.

Lemma nth_error_zip_with (f : A -> A -> A) (u v : vector A) (k : nat) :
  nth_error (zip_with f u v) k
  = match nth_error u k, nth_error v k with
    | Some a, Some b => Some (f a b)
    | _, _ => None
    end.
Proof.
  revert v k; induction u as [|a u IH]; intros [|b v] [|k]; cbn; try reflexivity.
  - now destruct (nth_error u k).
  - apply IH.
Qed.

Lemma nth_error_randn (draw : nat -> A) (n k : nat) :
  (k < n)%nat -> nth_error (randn draw n) k = Some (draw k).
Proof.
  intros Hk. unfold randn.
  rewrite nth_error_map, nth_error_seq.
  destruct (Nat.ltb_spec k n); [reflexivity | lia].
Qed.



End Data.

(** X1.  Cells 3 and 30 never raise a shape error: they yield [x] and [y]
    of 100 entries each, [x] the same whatever the draws, and entry [k] of
    [y] is [x[k]*(x[k]-1) + 1.2*draw[k]]. *)
Theorem synthesized_data {A : Type} `{Scalar A} (draw : nat -> A) :
  synthesize draw = ret (x_data, y_data draw)
  /\ length (x_data (A := A)) = 100%nat
  /\ length (y_data draw) = 100%nat
  /\ (forall k a,
         nth_error x_data k = Some a ->
         nth_error (y_data draw) k
         = Some (s_add (s_mul a (s_sub a (s_of_Z 1)))
                       (s_mul (s_of_dec 12 (-1)) (draw k)))).
Proof.
  split; [apply synthesize_ok|]. split; [apply x_data_length|]. split.
  - unfold y_data. rewrite !zip_with_length.
    + apply x_data_length.
    + now rewrite length_map.
    + rewrite zip_with_length by (now rewrite length_map).
      unfold randn. now rewrite !length_map, length_seq, x_data_length.
  - intros k a Ha.
    assert (Hk : (k < 100)%nat).
    { rewrite <- (x_data_length (A := A)). apply nth_error_Some. congruence. }
    unfold y_data. rewrite !nth_error_zip_with, !nth_error_map, Ha.
    cbn [option_map]. now rewrite nth_error_randn by exact Hk.
Qed.




(** ** More on fitting a list of pipelines *)

Section Fits.

Context {A : Type} `{Scalar A}.

Variable sk : sklearn A.

(** When the list of fits ends with a value, there is one coefficient
    vector per pipeline, each the [coef_] the library returned for it. *)
Lemma fit_all_returns (jobs : list (Z * estimator A)) (X : matrix A) (y : vector A)
      (cs : list (vector A)) :
  snd (fit_all sk jobs X y) = inr cs ->
  Forall2 (fun job c => result (sk (snd job) (poly_features (fst job) X) y) = inr c)
          jobs cs.
Proof.
  revert cs; induction jobs as [|[d est] jobs IH]; intros cs.
  - cbn. intros [= <-]. constructor.
  - rewrite fit_all_cons. unfold pipe_fit.
    destruct (result (sk est (poly_features d X) y)) as [e|c] eqn:Hres.
    + rewrite bind_raise. discriminate.
    + rewrite bind_step, bind_ret_map. cbn [snd].
      destruct (snd (fit_all sk jobs X y)) as [e|cs'] eqn:Hall; [discriminate|].
      intros [= <-]. constructor; [exact Hres | now apply IH].
Qed.

(** The pipelines fitted are those up to and including the first whose fit
    raises. *)
Lemma fit_all_attempted (jobs : list (Z * estimator A)) (X : matrix A) (y : vector A) :
  fits (fst (fit_all sk jobs X y)) = firstn (attempted (outcomes sk jobs X y)) jobs.
Proof.
  induction jobs as [|[d est] jobs IH]; [reflexivity|].
  rewrite fit_all_cons. cbn [outcomes map attempted]. fold (outcomes sk jobs X y).
  unfold pipe_fit.
  destruct (result (sk est (poly_features d X) y)) as [e|c] eqn:Hres.
  - rewrite bind_raise. cbn [fst firstn].
    now rewrite fits_fitted, fits_warned.
  - rewrite bind_step, bind_ret_map. cbn [fst firstn app].
    now rewrite fits_fitted, fits_app, fits_warned, IH.
Qed.

(** A step that cannot raise, run after a computation, changes neither its
    trace nor the way it ends. *)
Lemma bind_total {X Y} (m : M A X) (k : X -> M A Y) (o : option string) :
  ends_as (snd m) o ->
  (forall tr x, m = (tr, inr x) -> exists v, k x = ret v) ->
  fst (bind m k) = fst m /\ ends_as (snd (bind m k)) o.
Proof.
  intros Hm Hk. destruct m as [tr [e|x]].
  - split; [reflexivity|]. destruct o as [e0|]; cbn in *.
    + now injection Hm as ->.
    + destruct Hm as [v Hv]. discriminate.
  - destruct (Hk tr x eq_refl) as [v Hv]. cbn [bind]. rewrite Hv. cbn.
    rewrite app_nil_r. split; [reflexivity|].
    destruct o as [e|]; cbn in *; [discriminate | eauto].
Qed.

Lemma pd_DataFrame_ok (data : matrix A) (cols idx : list string) :
  length idx = length data ->
  Forall (fun row => length row = length cols) data ->
  pd_DataFrame data cols idx
  = inr {| columns := cols; index := idx; values := data |}.
Proof.
  intros Hidx Hrows. unfold pd_DataFrame.
  rewrite Hidx, Nat.eqb_refl. cbn [andb].
  replace (forallb (fun row => Nat.eqb (length row) (length cols)) data) with true;
    [reflexivity|].
  symmetry. apply forallb_forall. intros row Hrow.
  apply Nat.eqb_eq. rewrite Forall_forall in Hrows. now apply Hrows.
Qed.

Lemma padded_length (n : nat) (c : vector A) :
  (length c <= n)%nat -> length (padded n c) = n.
Proof.
  intros Hc. unfold padded. rewrite length_app, length_map, repeat_length. lia.
Qed.

Lemma evens_odds_pairs {X Y} (f g : X -> Y) (l : list X) :
  evens (flat_map (fun a => [f a; g a]) l) = map f l
  /\ odds (flat_map (fun a => [f a; g a]) l) = map g l.
Proof.
  induction l as [|a l [IH1 IH2]]; [now split|].
  cbn [flat_map app map]. split.
  - cbn [evens]. now rewrite IH1.
  - unfold odds at 1. now rewrite evens_cons, IH2.
Qed.

End Fits.

(** ** The tables and their frames *)

Section Tables.

Context {A : Type} `{Scalar A}.

Variable sk : sklearn A.

Lemma bind_ret_inv {X Y} (m : M A X) (f : X -> Y) (tr : list (event A)) (v : Y) :
  bind m (fun x => ret (f x)) = (tr, inr v) ->
  exists x, m = (tr, inr x) /\ v = f x.
Proof.
  rewrite bind_ret_map. destruct m as [tr' [e|x]]; cbn; [discriminate|].
  intros [= -> <-]. now exists x.
Qed.

Lemma Forall2_In_r {X Y} (P : X -> Y -> Prop) (l : list X) (l' : list Y) (y : Y) :
  Forall2 P l l' -> In y l' -> exists x, In x l /\ P x y.
Proof.
  induction 1 as [|a b l l' Hab _ IH]; intros Hy; [destruct Hy|].
  destruct Hy as [<-|Hy].
  - exists a. split; [now left | exact Hab].
  - destruct (IH Hy) as [x [Hx Hp]]. exists x. split; [now right | exact Hp].
Qed.

Lemma Forall2_length_inv {X Y} (P : X -> Y -> Prop) (l : list X) (l' : list Y) :
  Forall2 P l l' -> length l' = length l.
Proof.
  induction 1; simpl; congruence.
Qed.

(** When the degree loop ends with a table, the table has [n] rows of [n]
    entries, row [k] being the padded [coef_] of degree [k + 1]. *)
Lemma degree_table_shape (draw : nat -> A) (tr : list (event A)) (table : matrix A) :
  coef_per_column sk ->
  run_degree_loop sk draw = (tr, inr table) ->
  length table = Z.to_nat degrees
  /\ Forall (fun row => length row = Z.to_nat degrees) table.
Proof.
  intros Hsk Hrun. rewrite (run_degree_loop_normal draw Hsk) in Hrun.
  apply bind_ret_inv in Hrun. destruct Hrun as [cs [Hall ->]].
  apply (f_equal snd) in Hall. cbn [snd] in Hall.
  apply fit_all_returns in Hall.
  split.
  - rewrite length_map, (Forall2_length_inv Hall).
    unfold degree_jobs, py_range. now rewrite length_map, py_range_from_length.
  - apply Forall_forall. intros row Hrow.
    apply in_map_iff in Hrow. destruct Hrow as [c [<- Hc]].
    apply padded_length.
    destruct (@Forall2_In_r _ _ _ _ _ _ Hall Hc) as [[d est] [Hjob Hres]].
    cbn [fst snd] in Hres.
    unfold degree_jobs in Hjob. apply in_map_iff in Hjob.
    destruct Hjob as [i [[= <- <-] Hi]]. apply py_range_In in Hi.
    rewrite (Hsk _ _ _ _ (Z.to_nat i) Hres).
    + unfold degrees in *. lia.
    + apply poly_features_nonempty, x_data_nonempty.
    + apply poly_features_columns.
Qed.


End Tables.





(** ** The frames shown under the tables *)

(** X5.  Cell 7, run after cells 3, 5 and 6: building the data frame of
    [coef_holder] adds nothing to what the session shows and never raises;
    the run ends as the degree loop ends, and when the loop yields its table
    the frame holds exactly that table under the 26 column labels
    [x^1 .. x^26] and the 26 row labels [1_deg_poly .. 26_deg_poly]. *)
Theorem coefficient_frame_fits_table {A : Type} `{Scalar A}
        (sk : sklearn A) (draw : nat -> A) :
  coef_per_column sk ->
  fst (run_coef_frame sk draw) = fst (run_degree_loop sk draw)
  /\ (forall o, ends_as (snd (run_degree_loop sk draw)) o ->
                ends_as (snd (run_coef_frame sk draw)) o)
  /\ (forall table,
         snd (run_degree_loop sk draw) = inr table ->
         snd (run_coef_frame sk draw)
         = inr {| columns := column_labels degrees;
                  index := row_labels degrees;
                  values := table |}).
Proof.
  intros Hsk. unfold run_coef_frame.
  destruct (run_degree_loop sk draw) as [tr [e|table]] eqn:Hrun.
  - rewrite bind_raise. cbn [fst snd].
    split; [reflexivity|]. split; [|discriminate].
    intros [e0|]; cbn; [now intros [= ->] | intros [v Hv]; discriminate].
  - destruct (degree_table_shape draw Hsk Hrun) as [Hlen Hrows].
    rewrite bind_step. unfold coef_frame.
    rewrite pd_DataFrame_ok.
    + cbn [lift fst snd]. rewrite app_nil_r.
      split; [reflexivity|]. split.
      * intros [e|]; cbn; [discriminate | eauto].
      * now intros t [= <-].
    + now rewrite row_labels_length.
    + now rewrite column_labels_length.
Qed.

Lemma coefficient_frame_fits_table_witness :
  coef_per_column (demo_sklearn (F64.of_Z 1))
  /\ fst (run_coef_frame (demo_sklearn (F64.of_Z 1)) (fun _ => F64.of_Z 0))
     = fst (run_degree_loop (demo_sklearn (F64.of_Z 1)) (fun _ => F64.of_Z 0)).
Proof.
  split.
  - apply demo_sklearn_per_column.
  - exact (proj1 (coefficient_frame_fits_table (fun _ => F64.of_Z 0)
                    (demo_sklearn_per_column (F64.of_Z 1)))).
Defined.





(** ** The sweep over alpha *)



(** ** Stopping at the first failure *)

(** X9.  None of the three fitting cells catches an exception, so a fit
    that raises ends the cell: the pipelines fitted in a run are those of the
    cell's list, in order, up to and including the first whose fit raises,
    and no later one is fitted. *)
Theorem no_fit_after_first_failure {A : Type} `{Scalar A}
        (sk : sklearn A) (draw : nat -> A) (junk1 junk2 : nat -> nat -> A) :
  coef_per_column sk ->
  fits (fst (run_degree_loop sk draw))
  = firstn (attempted (outcomes sk (degree_jobs degrees)
                         (reshape_column x_data) (y_data draw)))
           (degree_jobs degrees)
  /\ fits (fst (run_comparison sk draw junk1 junk2))
     = firstn (attempted (outcomes sk comparison_jobs
                            (reshape_column x_data) (y_data draw)))
              comparison_jobs
  /\ (forall alphas,
         np_arange (s_of_Z 0) (s_of_dec 1 (-3)) (s_of_dec 1 (-6)) = inr alphas ->
         fits (fst (run_alpha_sweep sk draw))
         = firstn (attempted (outcomes sk (sweep_jobs alphas)
                                (reshape_column x_data) (y_data draw)))
                  (sweep_jobs alphas)).
Proof.
  intros Hsk. split; [|split].
  - rewrite (run_degree_loop_normal draw Hsk), bind_ret_map. cbn [fst].
    apply fit_all_attempted.
  - rewrite (run_comparison_normal draw junk1 junk2 Hsk), bind_ret_map. cbn [fst].
    apply fit_all_attempted.
  - intros alphas Hgrid.
    rewrite run_alpha_sweep_normal, Hgrid, bind_lift_ok, bind_ret_map. cbn [fst].
    apply fit_all_attempted.
Qed.

(** With the example library raising for every lasso fit whose alpha is at
    least 1, the comparison fits the first six ridge/lasso pairs and
    stops. *)
Lemma no_fit_after_first_failure_witness :
  coef_per_column (demo_sklearn (F64.of_Z 1))
  /\ fits (fst (run_comparison (demo_sklearn (F64.of_Z 1)) (fun _ => F64.of_Z 0)
                  (fun _ _ => F64.of_Z 7) (fun _ _ => F64.of_Z 8)))
     = firstn (attempted (outcomes (demo_sklearn (F64.of_Z 1)) comparison_jobs
                            (reshape_column x_data) (y_data (fun _ => F64.of_Z 0))))
              comparison_jobs.
Proof.
  split.
  - apply demo_sklearn_per_column.
  - exact (proj1 (proj2 (no_fit_after_first_failure
                           (fun _ => F64.of_Z 0)
                           (fun _ _ => F64.of_Z 7) (fun _ _ => F64.of_Z 8)
                           (demo_sklearn_per_column (F64.of_Z 1))))).
Defined.

(** ** The pipeline left behind by the degree loop *)

Lemma last_cons_default {X} (l : list X) :
  forall a d : X, last (a :: l) d = last l a.
Proof.
  induction l as [|b l IH]; intros a d; [reflexivity|].
  change (last (a :: b :: l) d) with (last (b :: l) d).
  now rewrite !IH.
Qed.

Lemma for_each_ext {A I S} (xs : list I) (body body' : I -> S -> M A S) :
  (forall i s, body i s = body' i s) ->
  forall s, for_each xs body s = for_each xs body' s.
Proof.
  intros Hb. induction xs as [|i xs IH]; intros s; [reflexivity|].
  cbn [for_each]. rewrite Hb. apply bind_ext. exact IH.
Qed.

(** A loop that also records, in a second variable, something about the
    iteration it is in: the first variable is as without the record, the
    second ends as the record of the last iteration. *)
Lemma for_each_tracking {A I S P} (xs : list I) (body : I -> S -> M A S) (tag : I -> P) :
  forall (p : P) (s : S),
    for_each xs (fun i st => bind (body i (snd st)) (fun s' => ret (tag i, s'))) (p, s)
    = bind (for_each xs body s) (fun s' => ret (last (map tag xs) p, s')).
Proof.
  induction xs as [|i xs IH]; intros p s.
  - cbn [for_each map last]. now rewrite bind_ret_l.
  - cbn [for_each map snd]. rewrite !bind_assoc. apply bind_ext. intros s'.
    rewrite bind_ret_l, IH. now rewrite last_cons_default.
Qed.

Lemma last_py_range_from {P} (tag : Z -> P) (p : P) (lo : Z) (len : nat) :
  last (map tag (py_range_from lo (S len))) p = tag (lo + Z.of_nat len)%Z.
Proof.
  revert lo p; induction len as [|k IH]; intros lo p.
  - cbn. f_equal. lia.
  - change (py_range_from lo (S (S k))) with (lo :: py_range_from (lo + 1) (S k)).
    cbn [map]. rewrite last_cons_default, IH. f_equal. lia.
Qed.

(** X13.  Cell 6 rebinds [pipe] in every iteration and cell 8 plots
    [pipe.predict] under the label [str(n) + "th deg fit"].  When the loop
    over [range(1,n+1)] ends normally, [coef_holder] is as computed by the
    loop and [pipe] is the pipeline of degree [n] (or, when the range is
    empty, whatever it was before); and the label determines the degree. *)
Theorem pipe_after_degree_loop {A : Type} `{Scalar A}
        (sk : sklearn A) (n : Z) (x y : vector A)
        (pipe : option (Z * estimator A)) (coef_holder : matrix A) :
  degree_loop_pipe sk n x y (pipe, coef_holder)
  = bind (degree_loop sk n x y coef_holder)
         (fun holder =>
            ret (if (0 <? n)%Z then Some (n, LinearRegression) else pipe, holder))
  /\ (forall m, fit_label n = fit_label m -> n = m).
Proof.
  split.
  - unfold degree_loop_pipe, degree_loop.
    pose (body := fun (i : Z) (holder : matrix A) =>
                    bind (pipe_fit sk i LinearRegression (reshape_column x) y)
                         (fun coef_ =>
                            lift (setitem_row holder (i - 1) (Some i)
                                    (map (np_round 3) coef_)))).
    pose (tag := fun i : Z => Some (i, LinearRegression (A := A))).
    transitivity
      (for_each (py_range 1 (n + 1))
         (fun i st => bind (body i (snd st)) (fun s' => ret (tag i, s')))
         (pipe, coef_holder)).
    + apply for_each_ext. intros i st. unfold body, tag. cbv zeta.
      now rewrite bind_assoc.
    + rewrite (@for_each_tracking A _ _ _ (py_range 1 (n + 1)) body tag).
      fold body. apply bind_ext. intros holder. do 2 f_equal.
      unfold py_range. destruct (Z.ltb_spec 0 n) as [Hn|Hn].
      * replace (Z.to_nat (n + 1 - 1)) with (S (Z.to_nat (n - 1))) by lia.
        rewrite last_py_range_from. unfold tag. do 2 f_equal. lia.
      * replace (Z.to_nat (n + 1 - 1)) with O by lia. reflexivity.
  - intros m Hm. unfold fit_label in Hm.
    apply py_str_inj. now apply append_inj_r in Hm.
Qed.

(** ** Rounding and norms over the reals *)









(** ** The data of the exercise *)

Lemma nth_error_map_seq {X} (f : nat -> X) (n k : nat) :
  (k < n)%nat -> nth_error (map f (seq 0 n)) k = Some (f k).
Proof.
  intros Hk. rewrite nth_error_map, nth_error_seq.
  destruct (Nat.ltb_spec k n); [reflexivity | lia].
Qed.

(** X12.  Cell 14 never raises: the three arrays have 100 entries each,
    entry [k] of [distance] is [3*e1[k] + 10] and entry [k] of [tiredness]
    is [(age[k] + 3*distance[k]) + 2*e2[k]], and the frame [df] has the
    columns [age], [distance], [tiredness], the row labels [0 .. 99], and in
    row [k] the three entries of index [k]. *)
Theorem walk_data_columns {A : Type} `{Scalar A}
        (age_draw : nat -> Z) (draw1 draw2 : nat -> A) :
  exists age distance tiredness df,
    walk_data age_draw draw1 draw2 = ret (age, distance, tiredness, df)
    /\ length age = 100%nat /\ length distance = 100%nat
    /\ length tiredness = 100%nat
    /\ columns df = ["age"; "distance"; "tiredness"]%string
    /\ length (values df) = 100%nat
    /\ forall k, (k < 100)%nat ->
         let a := s_of_Z (age_draw k) in
         let d := s_add (s_mul (s_of_Z 3) (draw1 k)) (s_of_Z 10) in
         let t := s_add (s_add a (s_mul (s_of_Z 3) d)) (s_mul (s_of_Z 2) (draw2 k)) in
         nth_error age k = Some a
         /\ nth_error distance k = Some d
         /\ nth_error tiredness k = Some t
         /\ nth_error (index df) k = Some (py_str (Z.of_nat k))
         /\ nth_error (values df) k = Some [a; d; t].
Proof.
  unfold walk_data.
  set (age := map (fun k => s_of_Z (age_draw k)) (seq 0 100)).
  set (distance := map (fun e => s_add (s_mul (s_of_Z 3) e) (s_of_Z 10))
                       (randn draw1 100)).
  assert (Lage : length age = 100%nat)
    by (unfold age; now rewrite length_map, length_seq).
  assert (Ldist : length distance = 100%nat)
    by (unfold distance, randn; now rewrite !length_map, length_seq).
  rewrite elementwise_same by (now rewrite length_map, Lage, Ldist).
  rewrite bind_lift_ok.
  set (partial := zip_with s_add age (map (s_mul (s_of_Z 3)) distance)).
  assert (Lpart : length partial = 100%nat).
  { unfold partial. rewrite zip_with_length; [exact Lage|].
    now rewrite length_map, Lage, Ldist. }
  rewrite elementwise_same
    by (unfold randn; now rewrite !length_map, length_seq, Lpart).
  rewrite bind_lift_ok.
  set (tiredness := zip_with s_add partial (map (s_mul (s_of_Z 2)) (randn draw2 100))).
  assert (Ltired : length tiredness = 100%nat).
  { unfold tiredness. rewrite zip_with_length; [exact Lpart|].
    unfold randn. now rewrite !length_map, length_seq, Lpart. }
  unfold pd_from_dict. cbn [forallb snd].
  rewrite Ldist, Ltired, Lage. cbn [Nat.eqb andb].
  rewrite bind_lift_ok.
  do 4 eexists. split; [reflexivity|].
  split; [exact Lage|]. split; [exact Ldist|]. split; [exact Ltired|].
  split; [reflexivity|]. cbn [values index].
  split; [now rewrite length_map, length_seq|].
  intros k Hk. cbv zeta.
  assert (Ha : nth_error age k = Some (s_of_Z (age_draw k)))
    by (unfold age; now apply (nth_error_map_seq (fun k => s_of_Z (age_draw k)))).
  assert (Hd : nth_error distance k
               = Some (s_add (s_mul (s_of_Z 3) (draw1 k)) (s_of_Z 10))).
  { unfold distance. now rewrite nth_error_map, nth_error_randn. }
  assert (Ht : nth_error tiredness k
               = Some (s_add (s_add (s_of_Z (age_draw k))
                                    (s_mul (s_of_Z 3)
                                       (s_add (s_mul (s_of_Z 3) (draw1 k)) (s_of_Z 10))))
                             (s_mul (s_of_Z 2) (draw2 k)))).
  { unfold tiredness, partial.
    rewrite !nth_error_zip_with, !nth_error_map, Ha, Hd, nth_error_randn by exact Hk.
    reflexivity. }
  split; [exact Ha|]. split; [exact Hd|]. split; [exact Ht|]. split.
  - unfold py_range. rewrite nth_error_map, py_range_from_nth by lia.
    cbn [option_map]. repeat f_equal; lia.
  - rewrite nth_error_map_seq by exact Hk.
    cbn [flat_map snd]. now rewrite Ha, Hd, Ht.
Qed.

(** ** Names *)

(** X14.  Read from top to bottom, no statement of the notebook reads a
    name that neither an earlier statement nor Python itself binds; two of
    the imported names, [meshgrid] (cell 1) and [StandardScaler] (cell 25),
    are never read.  Where the label comprehensions call
    [range(1,n+1)], [n] is 26 in cell 7 and 10 in cells 34 and 35, and the
    [str(n)] of the legend of cell 8 is [str(26)]. *)
Theorem names_bound_before_use :
  Analysis.undefined_names = []
  /\ Analysis.unused_imports = [(1%nat, "meshgrid"%string); (25%nat, "StandardScaler"%string)]
  /\ Analysis.resolved_args 7 "range"
     = [ [Py.EInt 1; Py.EBin Py.Add (Py.EInt 26) (Py.EInt 1)];
         [Py.EInt 1; Py.EBin Py.Add (Py.EInt 26) (Py.EInt 1)] ]
  /\ Analysis.resolved_args 34 "range"
     = [ [Py.EInt 1; Py.EBin Py.Add (Py.EInt 10) (Py.EInt 1)] ]
  /\ Analysis.resolved_args 35 "range"
     = [ [Py.EInt 1; Py.EBin Py.Add (Py.EInt 10) (Py.EInt 1)] ]
  /\ Analysis.resolved_args 8 "str" = [ [Py.EInt 26] ].
Proof.
  repeat split; vm_compute; reflexivity.
Qed.
